(** * shill-utilities: peer classification, flood handling and
      multi-account commenting

    A shallow embedding of [src/telegram/TelegramService.ts] and
    [src/scripts/multi_commenter.ts].

    - GramJS objects become records; a field read through [as any] that
      may be [undefined] is an [option].
    - [async] code becomes a program tree [Prog]: every call into the
      GramJS client, every timed wait and every [Math.random()] is a
      node of the tree, answered by the environment that runs it.
    - [this.writablePeers] (an array) is a [list]; the per-client
      [Map<string, ...>] is a [gmap string _]; [Set<string>] is a
      [gset string].
    - An exception is a [Throws] answer of the environment or a [Throws]
      result of the function.
    - Fields and variables are passed in and out of each method or
      callback, which is run as a whole: what another callback assigns
      while this one awaits is not part of the embedding. *)

From stdpp Require Import base strings gmap list pretty.
From Stdlib Require Import Ascii ZArith QArith Qround Lia.

Close Scope Q_scope.

(** ** JavaScript values *)

Module Js.

(** A thrown value.  [errors.FloodWaitError] carries [seconds], the whole
    number of the platform's [FLOOD_WAIT_<n>]; for any other value the
    code looks at [e.message] and at [String(e)]. *)
Inductive Error : Type :=
| FloodWaitError (seconds : option Z)
| OtherError (message : option string) (asString : string).

(** The outcome of an awaited call. *)
Inductive Result (A : Type) : Type :=
| Value (a : A)
| Throws (e : Error).
Global Arguments Value {A} a.
Global Arguments Throws {A} e.

(** [s || d] for a string that may be [undefined]: the empty string is
    falsy. *)
Definition orElse (s : option string) (d : string) : string :=
  match s with
  | Some x => if decide (x = "") then d else x
  | None => d
  end.

(** Truthiness of a string that may be [undefined]. *)
Definition truthy (s : option string) : bool :=
  match s with
  | Some x => bool_decide (x ≠ "")
  | None => false
  end.

(** [n || d] for a number that may be [undefined]: zero is falsy. *)
Definition numOrElse (n : option Z) (d : Z) : Z :=
  match n with
  | Some x => if decide (x = 0%Z) then d else x
  | None => d
  end.

(** White space of [String.prototype.trim] among the characters of
    [ascii]: TAB, LF, VT, FF, CR, SP and NBSP. *)
Definition isWhiteSpace (a : ascii) : bool :=
  let n := nat_of_ascii a in
  ((9 <=? n)%nat && (n <=? 13)%nat) || (n =? 32)%nat || (n =? 160)%nat.

Fixpoint trimStart (s : string) : string :=
  match s with
  | String a r => if isWhiteSpace a then trimStart r else s
  | EmptyString => EmptyString
  end.

Fixpoint trimEnd (s : string) : string :=
  match s with
  | String a r =>
      match trimEnd r with
      | EmptyString => if isWhiteSpace a then EmptyString else String a EmptyString
      | r' => String a r'
      end
  | EmptyString => EmptyString
  end.

Definition trim (s : string) : string := trimEnd (trimStart s).

(** Upper-casing of the letters a-z, the only folding that the [i]
    flag performs against a pattern of ASCII letters and underscores. *)
Definition upcase (a : ascii) : ascii :=
  let n := nat_of_ascii a in
  if ((97 <=? n)%nat && (n <=? 122)%nat)%bool then ascii_of_nat (n - 32) else a.

Fixpoint toUpper (s : string) : string :=
  match s with
  | String a r => String (upcase a) (toUpper r)
  | EmptyString => EmptyString
  end.

(** [p] occurs somewhere in [s]. *)
Fixpoint includes (p s : string) : bool :=
  String.prefix p s ||
  match s with
  | String _ r => includes p r
  | EmptyString => false
  end.

(** [/p1|p2|.../i.test(s)] for upper-case literal alternatives. *)
Definition testAnyI (alts : list string) (s : string) : bool :=
  existsb (fun p => includes p (toUpper s)) alts.

End Js.

(** ** The GramJS objects the code inspects *)

Module Api.

(** [bannedRights] / [defaultBannedRights]: only [send_messages] is read. *)
Record ChatBannedRights : Type := { send_messages : bool }.

(** [Api.Channel].  [id] is a big integer; [None] stands for an entity
    whose [id] is missing, so that [entity.id.toString()] throws. *)
Record Channel : Type := {
  channel_id : option Z;
  channel_left : bool;
  channel_broadcast : bool;
  channel_megagroup : bool;
  channel_bannedRights : option ChatBannedRights;
  channel_defaultBannedRights : option ChatBannedRights
}.

(** [Api.Chat]. *)
Record Chat : Type := {
  chat_id : option Z;
  chat_deactivated : bool;
  chat_left : bool;
  chat_defaultBannedRights : option ChatBannedRights
}.

(** [Api.User]. *)
Record User : Type := {
  user_id : option Z;
  user_bot : bool
}.

(** What [instanceof] can tell apart.  [OtherEntity] is any object of
    another class ([ChatForbidden], [ChannelForbidden], [UserEmpty],
    ...), named by its class. *)
Inductive Entity : Type :=
| EChannel (c : Channel)
| EChat (c : Chat)
| EUser (u : User)
| OtherEntity (className : string).

(** [Api.TypeInputPeer]: the code only passes it on and compares it by
    reference ([p.input !== input]), so it is its object identity. *)
Definition InputPeer : Type := positive.

(** A [Dialog] as the classification loops read it. *)
Record Dialog : Type := {
  dialog_title : option string;
  dialog_name : option string;
  dialog_inputEntity : option InputPeer;
  dialog_entity : option Entity;
  dialog_isGroup : bool;
  dialog_isUser : bool
}.

(** [message.fromId]: a [PeerUser] with its [userId], or a peer of
    another class. *)
Inductive Peer : Type :=
| PeerUser (userId : option Z)
| PeerOther (className : string).

(** A message: [fromId] and [id] for an incoming post, [message] and
    [text] for a template. *)
Record Message : Type := {
  message_fromId : option Peer;
  message_id : option Z;
  message_message : option string;
  message_text : option string
}.

(** [client.getMe()]: the own user, whose [id] may be missing. *)
Record Me : Type := { me_id : option Z }.

End Api.

(** [x.toString()] of a big integer. *)
Definition toString (n : Z) : string := pretty n.

(** ** Programs over the transport *)

(** Each client of the process is named by its index. *)
Definition ClientId : Type := nat.

(** The calls that leave the code: the GramJS client, [sleep] and
    [Math.random]. *)
Inductive Call : Type :=
| GetDialogs (c : ClientId)
| SendMessage (c : ClientId) (input : Api.InputPeer) (message : string) (replyTo : option Z)
| GetMe (c : ClientId)
| GetEntity (c : ClientId) (source : string)
| GetMessages (c : ClientId) (entity : Api.Entity) (limit : Z)
| Sleep (ms : Z)
| MathRandom.

(** What each call gives back.  An element of the arrays returned by
    [getDialogs] and [getMessages] may be [null] ([None]): reading a
    property of it throws inside the loop's own [try]. *)
Definition Resp (c : Call) : Type :=
  match c with
  | GetDialogs _ => Js.Result (list (option Api.Dialog))
  | SendMessage _ _ _ _ => Js.Result unit
  | GetMe _ => Js.Result (option Api.Me)
  | GetEntity _ _ => Js.Result Api.Entity
  | GetMessages _ _ _ => Js.Result (list (option Api.Message))
  | Sleep _ => unit
  | MathRandom => Q
  end.

(** An [async] function body: it returns, or awaits a call and goes on
    with the answer. *)
Inductive Prog (A : Type) : Type :=
| Ret (a : A)
| Vis (c : Call) (k : Resp c → Prog A).
Arguments Ret {A} a.
Arguments Vis {A} c k.

Fixpoint bind {A B : Type} (p : Prog A) (f : A → Prog B) : Prog B :=
  match p with
  | Ret a => f a
  | Vis c k => Vis c (fun r => bind (k r) f)
  end.

Definition call (c : Call) : Prog (Resp c) := Vis c Ret.

#[global] Instance Prog_ret : MRet Prog := @Ret.
#[global] Instance Prog_bind : MBind Prog := fun A B f p => bind p f.

(** An environment answers every call from its own state [W]. *)
Definition Env (W : Type) : Type := ∀ c : Call, W → Resp c * W.

(** Running a program: its result, the final state of the environment and
    the calls made, in order. *)
Fixpoint run {A W : Type} (env : Env W) (p : Prog A) (w : W) : A * W * list Call :=
  match p with
  | Ret a => (a, w, [])
  | Vis c k =>
      let '(r, w1) := env c w in
      let '(a, w2, tr) := run env (k r) w1 in
      (a, w2, c :: tr)
  end.

Definition result {A W : Type} (x : A * W * list Call) : A := x.1.1.
Definition trace {A W : Type} (x : A * W * list Call) : list Call := x.2.

(** The calls of a trace that reach [client.sendMessage]. *)
Definition isSend (c : Call) : bool :=
  match c with SendMessage _ _ _ _ => true | _ => false end.
Definition sends (tr : list Call) : list Call := List.filter isSend tr.

(** The time a trace spends in [sleep], in milliseconds. *)
Definition sleepMs (c : Call) : Z :=
  match c with Sleep ms => ms | _ => 0%Z end.
Definition slept (tr : list Call) : Z := foldr (fun c acc => (sleepMs c + acc)%Z) 0%Z tr.

(** ** Peer identifiers *)

(** [peerIdString], the same text in [TelegramService.ts] (a private
    method) and in [multi_commenter.ts].  A missing [id] makes
    [entity.id.toString()] throw inside the [try], whose empty [catch]
    falls through to the last [return]. *)
Definition peerIdString (entity : Api.Entity) : string :=
  match entity with
  | Api.EChannel c =>
      match Api.channel_id c with
      | Some n => "channel_" +:+ toString n
      | None => "peer_unknown"
      end
  | Api.EChat c =>
      match Api.chat_id c with
      | Some n => "chat_" +:+ toString n
      | None => "peer_unknown"
      end
  | Api.EUser u =>
      match Api.user_id u with
      | Some n => "user_" +:+ toString n
      | None => "peer_unknown"
      end
  | Api.OtherEntity _ => "peer_unknown"
  end.

(** [br && br.send_messages] *)
Definition sendBanned (br : option Api.ChatBannedRights) : bool :=
  match br with
  | Some r => Api.send_messages r
  | None => false
  end.

(** The write-permission heuristics on the entity: [true] is [continue]. *)
Definition entitySkipped (groups_only : bool) (entity : Api.Entity) : bool :=
  match entity with
  | Api.EChannel c =>
      if Api.channel_left c then true
      else if Api.channel_broadcast c then true
      else if negb (Api.channel_megagroup c) then true
      else sendBanned (Api.channel_bannedRights c)
  | Api.EChat c =>
      if Api.chat_deactivated c then true
      else if Api.chat_left c then true
      else sendBanned (Api.chat_defaultBannedRights c)
  | Api.EUser u =>
      if groups_only then true
      else Api.user_bot u
  | Api.OtherEntity _ => false
  end.

(** The part of a loop body before the entity is looked at: the title,
    the input handle and the entity of a dialog that is kept so far.
    [None] is [continue], or the [catch] of the body for a [null]
    element. *)
Definition dialogFields (groups_only : bool) (d : option Api.Dialog)
    : option (string * Api.InputPeer * Api.Entity) :=
  match d with
  | None => None
  | Some d =>
      let title := Js.orElse (Api.dialog_title d) (Js.orElse (Api.dialog_name d) "Unknown") in
      match Api.dialog_inputEntity d, Api.dialog_entity d with
      | Some input, Some entity =>
          if groups_only then
            if negb (Api.dialog_isGroup d) then None else Some (title, input, entity)
          else
            if negb (Api.dialog_isGroup d || Api.dialog_isUser d) then None
            else Some (title, input, entity)
      | _, _ => None
      end
  end.

(** ** [TelegramService] *)

Module TelegramService.

Record WritablePeer : Type := {
  title : string;
  input : Api.InputPeer;
  id : string
}.

(** The fields of the class that the methods below use: [client]
    ([None] before [init]), [config.runtime.groups_only] and
    [writablePeers]. *)
Record t : Type := {
  client : option ClientId;
  groups_only : bool;
  writablePeers : list WritablePeer
}.

Definition setWritablePeers (s : t) (ps : list WritablePeer) : t :=
  {| client := client s; groups_only := groups_only s; writablePeers := ps |}.

(** One turn of the loop of [updateWritableGroups]: the peer pushed for
    dialog [d], if any. *)
Definition classify (groups_only : bool) (d : option Api.Dialog) : option WritablePeer :=
  match dialogFields groups_only d with
  | Some (title, input, entity) =>
      if entitySkipped groups_only entity then None
      else Some {| title := title; input := input; id := peerIdString entity |}
  | None => None
  end.

(** The loop: [nextPeers] starts empty and grows by [push]. *)
Definition nextPeers (groups_only : bool) (dialogs : list (option Api.Dialog))
    : list WritablePeer :=
  foldl (fun next d =>
           match classify groups_only d with
           | Some p => next ++ [p]
           | None => next
           end) [] dialogs.

Definition clientNotInitialized : Js.Error :=
  Js.OtherError (Some "Client not initialized") "Error: Client not initialized".

(** [updateWritableGroups]: the result says whether the call returned
    or threw, next to the service as it is afterwards. *)
Definition updateWritableGroups (s : t) : Prog (Js.Result unit * t) :=
  match client s with
  | None => Ret (Js.Throws clientNotInitialized, s)
  | Some c =>
      dialogs ← call (GetDialogs c);
      match dialogs with
      | Js.Value ds => Ret (Js.Value (), setWritablePeers s (nextPeers (groups_only s) ds))
      | Js.Throws _ => Ret (Js.Value (), s)
      end
  end.

Definition getWritablePeers (s : t) : list WritablePeer := writablePeers s.

(** [arr[Math.floor(r * arr.length)]] *)
Definition at_random {T : Type} (arr : list T) (r : Q) : option T :=
  let i := Qfloor (r * inject_Z (Z.of_nat (length arr))) in
  if (i <? 0)%Z then None else arr !! Z.to_nat i.

Definition pickRandomPeer (s : t) : Prog (option WritablePeer) :=
  match writablePeers s with
  | [] => Ret None
  | _ => r ← call MathRandom; Ret (at_random (writablePeers s) r)
  end.

(** The alternatives of the regular expression in [sendMessageTo]. *)
Definition permanentErrors : list string :=
  ["CHAT_WRITE_FORBIDDEN"; "CHAT_ADMIN_REQUIRED"; "USER_BANNED_IN_CHANNEL";
   "PEER_ID_INVALID"; "YOU_BLOCKED_USER"].

(** [(e && e.message) ? String(e.message) : String(e)] *)
Definition errorText (message : option string) (asString : string) : string :=
  if Js.truthy message then default "" message else asString.

(** The [catch] block of [sendMessageTo]. *)
Definition sendFailed (s : t) (inputPeer : Api.InputPeer) (e : Js.Error) : Prog (bool * t) :=
  match e with
  | Js.FloodWaitError secs =>
      let seconds := Js.numOrElse secs 0 in
      if ((0 <? seconds) && (seconds <? 3600))%Z then
        _ ← call (Sleep ((seconds + 1) * 1000));
        Ret (false, s)
      else Ret (false, s)
  | Js.OtherError message asString =>
      let msg := errorText message asString in
      if Js.testAnyI permanentErrors msg then
        Ret (false, setWritablePeers s
               (List.filter (fun p => negb (bool_decide (input p = inputPeer))) (writablePeers s)))
      else Ret (false, s)
  end.

(** Reading [sendMessage] off a client that was never set. *)
Definition noClient : Js.Error :=
  Js.OtherError (Some "Cannot read properties of undefined (reading 'sendMessage')")
                "TypeError: Cannot read properties of undefined (reading 'sendMessage')".

Definition sendMessageTo (s : t) (inputPeer : Api.InputPeer) (message : string)
    : Prog (bool * t) :=
  match client s with
  | None => sendFailed s inputPeer noClient
  | Some c =>
      r ← call (SendMessage c inputPeer message None);
      match r with
      | Js.Value _ => Ret (true, s)
      | Js.Throws e => sendFailed s inputPeer e
      end
  end.

Definition sendRandomMessage (s : t) (text : string) : Prog (bool * t) :=
  peer ← pickRandomPeer s;
  match peer with
  | None => Ret (false, s)
  | Some peer => sendMessageTo s (input peer) text
  end.

End TelegramService.

(** ** [multi_commenter] *)

Module MultiCommenter.

(** The value type of the per-client [Map]. *)
Record PeerRec : Type := {
  title : string;
  input : Api.InputPeer
}.

Record ClientState : Type := {
  client : ClientId;
  phone : string;
  selfId : option string;
  writablePeers : gmap string PeerRec
}.

(** The [runtime] section of [MultiUserConfig]. *)
Record Runtime : Type := {
  groups_only : bool;
  comments_source : string;
  comments_refresh_minutes : Z;
  ignore_probability : Q;
  max_comment_history : option Z
}.

(** One turn of the loop of [getWritablePeers]: the key and the record
    set for dialog [d], if any. *)
Definition classify (groupsOnly : bool) (d : option Api.Dialog) : option (string * PeerRec) :=
  match dialogFields groupsOnly d with
  | Some (title, input, entity) =>
      if entitySkipped groupsOnly entity then None
      else Some (peerIdString entity, {| title := title; input := input |})
  | None => None
  end.

(** The loop: [map.set(id, ...)] for every dialog that is kept. *)
Definition peersOf (groupsOnly : bool) (dialogs : list (option Api.Dialog))
    : gmap string PeerRec :=
  foldl (fun map d =>
           match classify groupsOnly d with
           | Some (id, rec) => <[id := rec]> map
           | None => map
           end) ∅ dialogs.

(** [getWritablePeers] has no [try] around [getDialogs]: its exception
    is the caller's. *)
Definition getWritablePeers (client : ClientId) (groupsOnly : bool)
    : Prog (Js.Result (gmap string PeerRec)) :=
  dialogs ← call (GetDialogs client);
  match dialogs with
  | Js.Value ds => Ret (Js.Value (peersOf groupsOnly ds))
  | Js.Throws e => Ret (Js.Throws e)
  end.

(** [String(x)] of an id that may be [undefined]. *)
Definition String_ (x : option Z) : string :=
  match x with
  | Some n => toString n
  | None => "undefined"
  end.

(** [x?.toString?.() || String(x)] *)
Definition idString (x : option Z) : string :=
  Js.orElse (toString <$> x) (String_ x).

(** The [try]/[catch] of [main] that resolves [selfId] and builds the
    pool of one client.  When the [try] fails, the [catch] builds the
    pool again and leaves [selfId] unset; an exception there leaves
    [main]. *)
Definition initClientState (client : ClientId) (phone : string) (groupsOnly : bool)
    : Prog (Js.Result ClientState) :=
  let withoutSelfId : Prog (Js.Result ClientState) :=
    peers ← getWritablePeers client groupsOnly;
    match peers with
    | Js.Value wp =>
        Ret (Js.Value {| client := client; phone := phone; selfId := None;
                         writablePeers := wp |})
    | Js.Throws e => Ret (Js.Throws e)
    end in
  me ← call (GetMe client);
  match me with
  | Js.Value me =>
      let selfId := idString (me ≫= Api.me_id) in
      peers ← getWritablePeers client groupsOnly;
      match peers with
      | Js.Value wp =>
          Ret (Js.Value {| client := client; phone := phone; selfId := Some selfId;
                           writablePeers := wp |})
      | Js.Throws _ => withoutSelfId
      end
  | Js.Throws _ => withoutSelfId
  end.

(** The loop of [main] over [config.users], from client index [i] on
    (connecting and logging in belong to the transport). *)
Fixpoint initClients (i : ClientId) (phones : list string) (groupsOnly : bool)
    (clients : list ClientState) : Prog (Js.Result (list ClientState)) :=
  match phones with
  | [] => Ret (Js.Value clients)
  | phone :: rest =>
      c ← initClientState i phone groupsOnly;
      match c with
      | Js.Value c => initClients (S i) rest groupsOnly (clients ++ [c])
      | Js.Throws e => Ret (Js.Throws e)
      end
  end.

(** [clients.map((c) => new Set(Array.from(c.writablePeers.keys())))] *)
Definition idSets (clients : list ClientState) : list (gset string) :=
  (fun c => dom (writablePeers c)) <$> clients.

(** One turn of the intersection loop: the ids of [commonIds] that
    [idSets[i]] has. *)
Definition keepCommon (commonIds s : gset string) : gset string :=
  filter (fun id => id ∈ s) commonIds.

(** The value of [commonIds]: a copy of [idSets[0]], narrowed by every
    later set.
    [main] has returned before this point when [clients] is empty. *)
Definition commonIdsOf (clients : list ClientState) : gset string :=
  match idSets clients with
  | [] => ∅
  | s0 :: rest => foldl keepCommon s0 rest
  end.

(** The text kept from one fetched message: [None] when the element is
    [null] (the inner [catch]) or when the trimmed text is empty. *)
Definition templateOf (m : option Api.Message) : option string :=
  match m with
  | None => None
  | Some m =>
      let txt := Js.orElse (Api.message_message m) (Js.orElse (Api.message_text m) "") in
      let clean := Js.trim txt in
      if decide (clean = "") then None else Some clean
  end.

Definition textsOf (res : list (option Api.Message)) : list string :=
  foldl (fun texts m =>
           match templateOf m with
           | Some clean => texts ++ [clean]
           | None => texts
           end) [] res.

Definition fetchCommentTemplates (client : ClientId) (source : string) (limit : Z)
    : Prog (list string) :=
  entity ← call (GetEntity client source);
  match entity with
  | Js.Value entity =>
      res ← call (GetMessages client entity (Z.max 1 (Z.min 500 limit)));
      match res with
      | Js.Value res => Ret (textsOf res)
      | Js.Throws _ => Ret []
      end
  | Js.Throws _ => Ret []
  end.

(** [config.runtime.max_comment_history || 200] *)
Definition historyLimit (cfg : Runtime) : Z := Js.numOrElse (max_comment_history cfg) 200.

Definition fetchTemplates (cfg : Runtime) (watcher : ClientId) : Prog (list string) :=
  fetchCommentTemplates watcher (comments_source cfg) (historyLimit cfg).

(** [arr[Math.floor(r * arr.length)]] *)
Definition at_random {T : Type} (arr : list T) (r : Q) : option T :=
  let i := Qfloor (r * inject_Z (Z.of_nat (length arr))) in
  if (i <? 0)%Z then None else arr !! Z.to_nat i.

Definition pickRandom {T : Type} (arr : list T) : Prog (option T) :=
  match arr with
  | [] => Ret None
  | _ => r ← call MathRandom; Ret (at_random arr r)
  end.

(** A [NewMessageEvent]: what [getChat()] gives and the message. *)
Record NewMessageEvent : Type := {
  event_chat : Js.Result (option Api.Entity);
  event_message : option Api.Message
}.

(** [senderUid]: set only for a [fromId] of class [PeerUser]. *)
Definition senderUid (event : NewMessageEvent) : option string :=
  match event_message event ≫= Api.message_fromId with
  | Some (Api.PeerUser userId) => Some (idString userId)
  | _ => None
  end.

(** The loop over [clients] that looks for the author among the own
    accounts: [true] is the [return] inside it. *)
Definition authoredByUs (clients : list ClientState) (event : NewMessageEvent) : bool :=
  let senderUid := senderUid event in
  Js.truthy senderUid &&
  existsb (fun c => Js.truthy (selfId c) && bool_decide (selfId c = senderUid)) clients.

Definition getClientInputForPeer (peerId : string) (clientState : ClientState)
    : option Api.InputPeer :=
  input <$> (writablePeers clientState !! peerId).

(** The comment to post and the cache afterwards: a draw from the
    cache, or, when that gives nothing, a fetch that replaces the cache
    followed by a second draw. *)
Definition pickComment (cfg : Runtime) (watcher : ClientId) (commentsCache : list string)
    : Prog (list string * string) :=
  c ← pickRandom commentsCache;
  let comment := Js.orElse c "" in
  if decide (comment = "") then
    list ← fetchTemplates cfg watcher;
    c ← pickRandom list;
    Ret (list, Js.orElse c "")
  else Ret (commentsCache, comment).

(** The variables of [main] that the callbacks close over. *)
Record Main : Type := {
  clients : list ClientState;
  commonIds : gset string;
  commentsCache : list string
}.

Definition setCommentsCache (st : Main) (cache : list string) : Main :=
  {| clients := clients st; commonIds := commonIds st; commentsCache := cache |}.

(** [main] after the clients are there: the intersection of the pools,
    then the first fetch of the templates through the watcher. *)
Definition startMain (cfg : Runtime) (watcher : ClientId) (clients : list ClientState)
    : Prog Main :=
  list ← fetchTemplates cfg watcher;
  Ret {| clients := clients; commonIds := commonIdsOf clients; commentsCache := list |}.

(** The callback of [commentsTimer]. *)
Definition commentsTimerTick (cfg : Runtime) (watcher : ClientId) (st : Main) : Prog Main :=
  list ← fetchTemplates cfg watcher;
  if (0 <? length list)%nat then Ret (setCommentsCache st list) else Ret st.

(** The handler registered on the watcher.  Every [return], and the
    end of the body after the send whatever its outcome, leaves with
    the variables as they are then.  A callback is taken as a whole,
    from the variables it finds to the variables it leaves: no other
    callback assigns them while this one awaits. *)
Definition onNewMessage (cfg : Runtime) (watcher : ClientId) (st : Main)
    (event : NewMessageEvent) : Prog Main :=
  match event_chat event with
  | Js.Throws _ => Ret st
  | Js.Value None => Ret st
  | Js.Value (Some chat) =>
      let pid := peerIdString chat in
      if negb (bool_decide (pid ∈ commonIds st)) then Ret st
      else if authoredByUs (clients st) event then Ret st
      else
        r ← call MathRandom;
        if Qlt_le_dec r (ignore_probability cfg) then Ret st
        else
          '(cache, comment) ← pickComment cfg watcher (commentsCache st);
          let st := setCommentsCache st cache in
          if decide (comment = "") then Ret st
          else
            chosen ← pickRandom (clients st);
            match chosen with
            | None => Ret st
            | Some chosen =>
                match getClientInputForPeer pid chosen with
                | None => Ret st
                | Some inputPeer =>
                    let msgId := event_message event ≫= Api.message_id in
                    _ ← call (SendMessage (client chosen) inputPeer comment msgId);
                    Ret st
                end
            end
  end.

End MultiCommenter.

(** ** The vocabulary of the specification *)

(** The flood state of the specification's data model.  Neither
    [TelegramService] nor [multi_commenter] has a field or a variable
    for it. *)
Record FloodState : Type := { blockedUntil : option Z }.

(** "[blockedUntil] is in the future" at time [now]. *)
Definition blocked (f : FloodState) (now : Z) : Prop :=
  match blockedUntil f with
  | Some t => (now < t)%Z
  | None => False
  end.

(** "On [TransientFlood(seconds)]: sets [blockedUntil = now + seconds]". *)
Definition floodSignalled (now seconds : Z) : FloodState :=
  {| blockedUntil := Some (now + seconds)%Z |}.

(** The outcomes that the specification's gate tells apart. *)
Inductive SendOutcome : Type := Sent | Skipped | Retried | Rejected | Failed.

(** The numeric [id] that [peerIdString] reads: that of a channel, a
    chat or a user, when it is there. *)
Definition entityId (entity : Api.Entity) : option Z :=
  match entity with
  | Api.EChannel c => Api.channel_id c
  | Api.EChat c => Api.chat_id c
  | Api.EUser u => Api.user_id u
  | Api.OtherEntity _ => None
  end.

(** The set intersection of a non-empty list of id sets, as the
    specification defines the common peer set. *)
Definition intersectionOf (sets : list (gset string)) : gset string :=
  match sets with
  | [] => ∅
  | s0 :: rest => foldr (∩) s0 rest
  end.

(** [Math.random()] answers in the interval from 0 (included) to 1
    (excluded). *)
Definition unitInterval {W : Type} (env : Env W) : Prop :=
  ∀ w, (0 <= (env MathRandom w).1)%Q ∧ ((env MathRandom w).1 < 1)%Q.

(** A collection of templates: no empty string. *)
Definition templatesOk (cache : list string) : Prop := Forall (fun t => t ≠ "") cache.

(** The variables of [main] over the life of the process: [main] sets
    them once the clients are there, and afterwards only the two
    callbacks run, in any order and against any transport: ticks of
    [commentsTimer] and events on the watcher. *)
Inductive reachable (cfg : MultiCommenter.Runtime) (watcher : ClientId)
    (clients : list MultiCommenter.ClientState) : MultiCommenter.Main → Prop :=
| reach_start (W : Type) (env : Env W) (w : W) :
    reachable cfg watcher clients
      (result (run env (MultiCommenter.startMain cfg watcher clients) w))
| reach_tick (W : Type) (env : Env W) (w : W) (st : MultiCommenter.Main) :
    reachable cfg watcher clients st →
    reachable cfg watcher clients
      (result (run env (MultiCommenter.commentsTimerTick cfg watcher st) w))
| reach_event (W : Type) (env : Env W) (w : W) (st : MultiCommenter.Main)
    (event : MultiCommenter.NewMessageEvent) :
    unitInterval env →
    reachable cfg watcher clients st →
    reachable cfg watcher clients
      (result (run env (MultiCommenter.onNewMessage cfg watcher st event) w)).

(** ** A simulated transport *)

Module Sim.

(** Fixed answers for the calls; the state of the environment is the
    clock in milliseconds, which only [sleep] moves. *)
Record Script : Type := {
  onGetDialogs : ClientId → Js.Result (list (option Api.Dialog));
  onSendMessage : ClientId → Api.InputPeer → Js.Result unit;
  onGetMe : ClientId → Js.Result (option Api.Me);
  onGetEntity : string → Js.Result Api.Entity;
  onGetMessages : Js.Result (list (option Api.Message));
  onRandom : Q
}.

Definition env (sc : Script) : Env Z :=
  fun c =>
    match c return Z → Resp c * Z with
    | GetDialogs cl => fun now => (onGetDialogs sc cl, now)
    | SendMessage cl inputPeer _ _ => fun now => (onSendMessage sc cl inputPeer, now)
    | GetMe cl => fun now => (onGetMe sc cl, now)
    | GetEntity _ source => fun now => (onGetEntity sc source, now)
    | GetMessages _ _ _ => fun now => (onGetMessages sc, now)
    | Sleep ms => fun now => (tt, (now + ms)%Z)
    | MathRandom => fun now => (onRandom sc, now)
    end.

(** A transport on which everything works and nothing is there. *)
Definition quiet : Script := {|
  onGetDialogs := fun _ => Js.Value [];
  onSendMessage := fun _ _ => Js.Value tt;
  onGetMe := fun _ => Js.Value (Some {| Api.me_id := Some 1%Z |});
  onGetEntity := fun _ => Js.Value (Api.OtherEntity "Channel");
  onGetMessages := Js.Value [];
  onRandom := 0%Q
|}.

Definition withSend (sc : Script) (r : Js.Result unit) : Script :=
  {| onGetDialogs := onGetDialogs sc; onSendMessage := fun _ _ => r;
     onGetMe := onGetMe sc; onGetEntity := onGetEntity sc;
     onGetMessages := onGetMessages sc; onRandom := onRandom sc |}.

Definition withDialogs (sc : Script) (r : Js.Result (list (option Api.Dialog))) : Script :=
  {| onGetDialogs := fun _ => r; onSendMessage := onSendMessage sc;
     onGetMe := onGetMe sc; onGetEntity := onGetEntity sc;
     onGetMessages := onGetMessages sc; onRandom := onRandom sc |}.

Definition withMessages (sc : Script) (r : Js.Result (list (option Api.Message))) : Script :=
  {| onGetDialogs := onGetDialogs sc; onSendMessage := onSendMessage sc;
     onGetMe := onGetMe sc; onGetEntity := onGetEntity sc;
     onGetMessages := r; onRandom := onRandom sc |}.

Definition withRandom (sc : Script) (r : Q) : Script :=
  {| onGetDialogs := onGetDialogs sc; onSendMessage := onSendMessage sc;
     onGetMe := onGetMe sc; onGetEntity := onGetEntity sc;
     onGetMessages := onGetMessages sc; onRandom := r |}.

(** Sample conversations. *)
Definition megagroup (n : Z) : Api.Channel := {|
  Api.channel_id := Some n; Api.channel_left := false; Api.channel_broadcast := false;
  Api.channel_megagroup := true; Api.channel_bannedRights := None;
  Api.channel_defaultBannedRights := None |}.

Definition broadcastChannel (n : Z) : Api.Channel := {|
  Api.channel_id := Some n; Api.channel_left := false; Api.channel_broadcast := true;
  Api.channel_megagroup := false; Api.channel_bannedRights := None;
  Api.channel_defaultBannedRights := None |}.

(** A discussion group in which the members are by default not allowed
    to send messages, and the account has no restriction of its own. *)
Definition mutedMegagroup (n : Z) : Api.Channel := {|
  Api.channel_id := Some n; Api.channel_left := false; Api.channel_broadcast := false;
  Api.channel_megagroup := true; Api.channel_bannedRights := None;
  Api.channel_defaultBannedRights := Some {| Api.send_messages := true |} |}.

Definition dialogOf (title : string) (inputPeer : Api.InputPeer) (isGroup isUser : bool)
    (entity : Api.Entity) : Api.Dialog := {|
  Api.dialog_title := Some title; Api.dialog_name := None;
  Api.dialog_inputEntity := Some inputPeer; Api.dialog_entity := Some entity;
  Api.dialog_isGroup := isGroup; Api.dialog_isUser := isUser |}.

Definition service (peers : list TelegramService.WritablePeer) : TelegramService.t := {|
  TelegramService.client := Some 0%nat;
  TelegramService.groups_only := true;
  TelegramService.writablePeers := peers |}.

Definition peerA : TelegramService.WritablePeer := {|
  TelegramService.title := "A"; TelegramService.input := 11%positive;
  TelegramService.id := "channel_1" |}.

Definition peerB : TelegramService.WritablePeer := {|
  TelegramService.title := "B"; TelegramService.input := 12%positive;
  TelegramService.id := "chat_2" |}.

Definition floodOf (seconds : Z) : Js.Result unit :=
  Js.Throws (Js.FloodWaitError (Some seconds)).

Definition rpcError (message : string) : Js.Result unit :=
  Js.Throws (Js.OtherError (Some message) ("RPCError: " +:+ message)).

(** Two accounts that share the group ["channel_1"]. *)
Definition account (cl : ClientId) (self : Z) (inputPeer : Api.InputPeer)
    : MultiCommenter.ClientState := {|
  MultiCommenter.client := cl;
  MultiCommenter.phone := "+100" +:+ pretty cl;
  MultiCommenter.selfId := Some (toString self);
  MultiCommenter.writablePeers :=
    {[ "channel_1" := {| MultiCommenter.title := "A"; MultiCommenter.input := inputPeer |} ]} |}.

Definition twoAccounts : list MultiCommenter.ClientState :=
  [account 0 501 11%positive; account 1 502 21%positive].

Definition runtime : MultiCommenter.Runtime := {|
  MultiCommenter.groups_only := true;
  MultiCommenter.comments_source := "templates";
  MultiCommenter.comments_refresh_minutes := 30;
  MultiCommenter.ignore_probability := 0%Q;
  MultiCommenter.max_comment_history := Some 200%Z |}.

Definition mainState (cache : list string) : MultiCommenter.Main := {|
  MultiCommenter.clients := twoAccounts;
  MultiCommenter.commonIds := MultiCommenter.commonIdsOf twoAccounts;
  MultiCommenter.commentsCache := cache |}.

(** A message of the template source with text [t]. *)
Definition textPost (t : string) : option Api.Message :=
  Some {| Api.message_fromId := None; Api.message_id := None;
          Api.message_message := Some t; Api.message_text := None |}.

(** A post by user [author] in the shared group. *)
Definition postBy (author : Z) : MultiCommenter.NewMessageEvent := {|
  MultiCommenter.event_chat := Js.Value (Some (Api.EChannel (megagroup 1)));
  MultiCommenter.event_message :=
    Some {| Api.message_fromId := Some (Api.PeerUser (Some author));
            Api.message_id := Some 77%Z;
            Api.message_message := Some "news"; Api.message_text := None |} |}.

End Sim.

(** ** Helpers of the scripts *)


(** The characters that [/[^0-9A-Za-z_.-]/] lets through. *)
Definition isFsSafe (a : ascii) : bool :=
  let n := nat_of_ascii a in
  ((48 <=? n)%nat && (n <=? 57)%nat) || ((65 <=? n)%nat && (n <=? 90)%nat)
  || ((97 <=? n)%nat && (n <=? 122)%nat)
  || (n =? 95)%nat || (n =? 46)%nat || (n =? 45)%nat.

(** [sanitizeForFs]: [name.replace(/[^0-9A-Za-z_.-]/g, '_')], one
    character at a time. *)
Fixpoint sanitizeForFs (name : string) : string :=
  match name with
  | String a r => String (if isFsSafe a then a else "_"%char) (sanitizeForFs r)
  | EmptyString => EmptyString
  end.

(** Every character of [s] is let through. *)
Fixpoint fsSafe (s : string) : bool :=
  match s with
  | String a r => isFsSafe a && fsSafe r
  | EmptyString => true
  end.

(** ** [poster] *)

Module Poster.

(** [pickRandom] of [poster.ts]. *)
Definition pickRandom {T : Type} (arr : list T) : Prog (option T) :=
  match arr with
  | [] => Ret None
  | _ => r ← call MathRandom; Ret (TelegramService.at_random arr r)
  end.

(** [(config.messages.list || []).map((s) => (s || '').trim()).filter(Boolean)];
    an entry of the list may be [null]. *)
Definition usableMessages (messages : option (list (option string))) : list string :=
  List.filter (fun s => negb (bool_decide (s = "")))
    (List.map (fun s => Js.trim (Js.orElse s "")) (default [] messages)).

(** The function given to [safeTask] as [postMessage]: one post cycle. *)
Definition postMessage (messages : option (list (option string))) (service : TelegramService.t)
    : Prog (Js.Result unit * TelegramService.t) :=
  let list := usableMessages messages in
  if (length list =? 0)%nat then Ret (Js.Value tt, service)
  else
    text ← pickRandom list;
    if negb (Js.truthy text) then Ret (Js.Value tt, service)
    else
      '(ok, service) ← TelegramService.sendRandomMessage service (default "" text);
      if negb ok then TelegramService.updateWritableGroups service
      else Ret (Js.Value tt, service).

(** [safeTask]: the exception of the task, if any, is logged and the
    returned function ends normally. *)
Definition safeTask {S : Type} (fn : Prog (Js.Result unit * S)) : Prog S :=
  '(_, s) ← fn; Ret s.

(** The callbacks of the two timers. *)
Definition postTask (messages : option (list (option string))) (service : TelegramService.t)
    : Prog TelegramService.t :=
  safeTask (postMessage messages service).

Definition refreshTask (service : TelegramService.t) : Prog TelegramService.t :=
  safeTask (TelegramService.updateWritableGroups service).

End Poster.

(** ** More transports for the examples *)

Module Scenario.

(** A transport whose listing fails the first [failures] times it is
    asked and gives [ds] afterwards; the state counts the listings. *)
Definition flakyDialogs (failures : nat) (me : Js.Result (option Api.Me))
    (ds : list (option Api.Dialog)) : Env nat :=
  fun c =>
    match c return nat → Resp c * nat with
    | GetDialogs _ => fun n =>
        (if (n <? failures)%nat
         then Js.Throws (Js.OtherError (Some "TIMEOUT") "Error: TIMEOUT")
         else Js.Value ds, S n)
    | SendMessage _ _ _ _ => fun n => (Js.Value tt, n)
    | GetMe _ => fun n => (me, n)
    | GetEntity _ _ => fun n => (Js.Value (Api.OtherEntity "Channel"), n)
    | GetMessages _ _ _ => fun n => (Js.Value [], n)
    | Sleep _ => fun n => (tt, n)
    | MathRandom => fun n => (0%Q, n)
    end.

(** A transport on which account [cl] is user [501 + cl] and lists the
    group ["channel_1"] under the handle [11 + 10 * cl]. *)
Definition perAccount : Env nat :=
  fun c =>
    match c return nat → Resp c * nat with
    | GetDialogs cl => fun n =>
        (Js.Value [Some (Sim.dialogOf "A" (Pos.of_nat (11 + 10 * cl)) true false
                           (Api.EChannel (Sim.megagroup 1)))], n)
    | SendMessage _ _ _ _ => fun n => (Js.Value tt, n)
    | GetMe cl => fun n => (Js.Value (Some {| Api.me_id := Some (501 + Z.of_nat cl)%Z |}), n)
    | GetEntity _ _ => fun n => (Js.Value (Api.OtherEntity "Channel"), n)
    | GetMessages _ _ _ => fun n => (Js.Value [], n)
    | Sleep _ => fun n => (tt, n)
    | MathRandom => fun n => (0%Q, n)
    end.

Definition groupA : option Api.Dialog :=
  Some (Sim.dialogOf "A" 11%positive true false (Api.EChannel (Sim.megagroup 1))).

Definition chatB : Api.Chat := {|
  Api.chat_id := Some 2%Z; Api.chat_deactivated := false; Api.chat_left := false;
  Api.chat_defaultBannedRights := None |}.

Definition groupB : option Api.Dialog :=
  Some (Sim.dialogOf "B" 12%positive true false (Api.EChat chatB)).

Definition alice : option Api.Dialog :=
  Some (Sim.dialogOf "Alice" 13%positive false true
          (Api.EUser {| Api.user_id := Some 3%Z; Api.user_bot := false |})).

End Scenario.

(** ** The calls a program can make *)




(** * Properties *)

(** ** Running programs *)

Lemma run_bind {A B W : Type} (env : Env W) (p : Prog A) (f : A → Prog B) (w : W) :
  run env (p ≫= f) w =
  let '(a, w1, t1) := run env p w in
  let '(b, w2, t2) := run env (f a) w1 in
  (b, w2, t1 ++ t2).
Proof.
  revert w. induction p as [a | c k IH]; intros w; simpl.
  - change (Ret a ≫= f) with (f a). by destruct (run env (f a) w) as [[b w2] t2].
  - change (Vis c k ≫= f) with (Vis c (fun r => k r ≫= f)). simpl.
    destruct (env c w) as [r w1]. rewrite IH.
    destruct (run env (k r) w1) as [[a w2] t1].
    by destruct (run env (f a) w2) as [[b w3] t2].
Qed.

Lemma run_call {W : Type} (env : Env W) (c : Call) (w : W) :
  run env (call c) w = ((env c w).1, (env c w).2, [c]).
Proof. unfold call. simpl. by destruct (env c w). Qed.

(** ** Classification loops *)

Lemma nextPeers_omap (groups_only : bool) (dialogs : list (option Api.Dialog)) :
  TelegramService.nextPeers groups_only dialogs
  = omap (TelegramService.classify groups_only) dialogs.
Proof.
  unfold TelegramService.nextPeers.
  cut (∀ acc, foldl (fun next d =>
                 match TelegramService.classify groups_only d with
                 | Some p => next ++ [p]
                 | None => next
                 end) acc dialogs
              = acc ++ omap (TelegramService.classify groups_only) dialogs).
  { intros H. by rewrite H. }
  induction dialogs as [| d ds IH]; intros acc; simpl.
  - by rewrite app_nil_r.
  - rewrite IH. destruct (TelegramService.classify groups_only d); [| done].
    by rewrite <- app_assoc.
Qed.

Lemma peersOf_app (groupsOnly : bool) (ds1 ds2 : list (option Api.Dialog)) :
  MultiCommenter.peersOf groupsOnly (ds1 ++ ds2)
  = foldl (fun map d =>
             match MultiCommenter.classify groupsOnly d with
             | Some (id, rec) => <[id := rec]> map
             | None => map
             end) (MultiCommenter.peersOf groupsOnly ds1) ds2.
Proof. unfold MultiCommenter.peersOf. by rewrite foldl_app. Qed.

Lemma peersOf_snoc (groupsOnly : bool) (ds : list (option Api.Dialog)) (d : option Api.Dialog) :
  MultiCommenter.peersOf groupsOnly (ds ++ [d])
  = match MultiCommenter.classify groupsOnly d with
    | Some (id, rec) => <[id := rec]> (MultiCommenter.peersOf groupsOnly ds)
    | None => MultiCommenter.peersOf groupsOnly ds
    end.
Proof. by rewrite peersOf_app. Qed.

(** Both loops keep the same dialogs under the same identifier. *)
Lemma classify_agree (groups_only : bool) (d : option Api.Dialog) :
  MultiCommenter.classify groups_only d
  = (fun p => (TelegramService.id p,
               {| MultiCommenter.title := TelegramService.title p;
                  MultiCommenter.input := TelegramService.input p |}))
    <$> TelegramService.classify groups_only d.
Proof.
  unfold MultiCommenter.classify, TelegramService.classify.
  destruct (dialogFields groups_only d) as [[[title input] entity] |]; [| done].
  by destruct (entitySkipped groups_only entity).
Qed.

Lemma dialogFields_entity (groups_only : bool) (d : Api.Dialog)
    (title : string) (inputPeer : Api.InputPeer) (entity : Api.Entity) :
  dialogFields groups_only (Some d) = Some (title, inputPeer, entity) →
  Api.dialog_entity d = Some entity.
Proof.
  unfold dialogFields.
  destruct (Api.dialog_inputEntity d), (Api.dialog_entity d); try done.
  destruct groups_only, (Api.dialog_isGroup d), (Api.dialog_isUser d); simpl; congruence.
Qed.

Lemma broadcast_skipped (groups_only : bool) (c : Api.Channel) :
  Api.channel_broadcast c = true → entitySkipped groups_only (Api.EChannel c) = true.
Proof. intros Hb. simpl. rewrite Hb. by destruct (Api.channel_left c). Qed.

Lemma broadcast_classify (groups_only : bool) (d : Api.Dialog) (c : Api.Channel) :
  Api.dialog_entity d = Some (Api.EChannel c) → Api.channel_broadcast c = true →
  TelegramService.classify groups_only (Some d) = None.
Proof.
  intros Hent Hb. unfold TelegramService.classify.
  destruct (dialogFields groups_only (Some d)) as [[[title input] entity] |] eqn:Hf; [| done].
  apply dialogFields_entity in Hf. rewrite Hent in Hf. injection Hf as <-.
  by rewrite broadcast_skipped.
Qed.

(** C5: a dialog whose entity is a channel flagged [broadcast] is never
    pushed by the loop of [updateWritableGroups] nor set by the loop of
    [getWritablePeers], with [groups_only] on or off: the pool built from
    a batch is the pool built from the batch without that dialog. *)
Theorem broadcast_never_writable (groupsOnly : bool) (d : Api.Dialog) (c : Api.Channel) :
  Api.dialog_entity d = Some (Api.EChannel c) →
  Api.channel_broadcast c = true →
  TelegramService.classify groupsOnly (Some d) = None
  ∧ MultiCommenter.classify groupsOnly (Some d) = None
  ∧ (∀ before after,
       TelegramService.nextPeers groupsOnly (before ++ Some d :: after)
       = TelegramService.nextPeers groupsOnly (before ++ after))
  ∧ (∀ before after,
       MultiCommenter.peersOf groupsOnly (before ++ Some d :: after)
       = MultiCommenter.peersOf groupsOnly (before ++ after)).
Proof.
  intros Hent Hb.
  pose proof (broadcast_classify groupsOnly d c Hent Hb) as Hts.
  assert (Hmc : MultiCommenter.classify groupsOnly (Some d) = None)
    by (by rewrite classify_agree, Hts).
  repeat split; [done | done | |].
  - intros before after. rewrite !nextPeers_omap, !omap_app. simpl. by rewrite Hts.
  - intros before after. rewrite !peersOf_app. simpl. by rewrite Hmc.
Qed.

Lemma broadcast_never_writable_witness :
  TelegramService.classify false
    (Some (Sim.dialogOf "News" 31%positive false false (Api.EChannel (Sim.broadcastChannel 9)))) = None
  ∧ MultiCommenter.peersOf true
      ([Some (Sim.dialogOf "A" 11%positive true false (Api.EChannel (Sim.megagroup 1)))]
       ++ Some (Sim.dialogOf "News" 31%positive true false (Api.EChannel (Sim.broadcastChannel 9)))
       :: [])
    = MultiCommenter.peersOf true
      ([Some (Sim.dialogOf "A" 11%positive true false (Api.EChannel (Sim.megagroup 1)))] ++ []).
Proof.
  split.
  - apply (broadcast_never_writable false _ (Sim.broadcastChannel 9)); reflexivity.
  - apply (broadcast_never_writable true
             (Sim.dialogOf "News" 31%positive true false (Api.EChannel (Sim.broadcastChannel 9)))
             (Sim.broadcastChannel 9) eq_refl eq_refl).
Defined.

(** ** Peer identifiers and pool keys *)

Lemma peerIdString_known (entity : Api.Entity) :
  is_Some (entityId entity) → peerIdString entity ≠ "peer_unknown".
Proof.
  intros [n Hn]. destruct entity as [c | c | u | name]; simpl in *;
    try rewrite Hn; discriminate.
Qed.

Lemma peerIdString_unknown (entity : Api.Entity) :
  entityId entity = None → peerIdString entity = "peer_unknown".
Proof. destruct entity as [c | c | u | name]; simpl; intros H; by try rewrite H. Qed.

Lemma classify_key (groupsOnly : bool) (d : Api.Dialog) (k : string)
    (rec : MultiCommenter.PeerRec) :
  MultiCommenter.classify groupsOnly (Some d) = Some (k, rec) →
  ∃ entity, Api.dialog_entity d = Some entity ∧ k = peerIdString entity.
Proof.
  unfold MultiCommenter.classify.
  destruct (dialogFields groupsOnly (Some d)) as [[[title input] entity] |] eqn:Hf; [| done].
  apply dialogFields_entity in Hf.
  destruct (entitySkipped groupsOnly entity); [done |].
  intros [= <- <-]. eauto.
Qed.

Lemma peersOf_keys (groupsOnly : bool) (dialogs : list (option Api.Dialog)) (k : string) :
  k ∈ dom (MultiCommenter.peersOf groupsOnly dialogs) →
  ∃ d entity, Some d ∈ dialogs ∧ Api.dialog_entity d = Some entity ∧ k = peerIdString entity.
Proof.
  induction dialogs as [| d ds IH] using rev_ind.
  - unfold MultiCommenter.peersOf. simpl. rewrite dom_empty_L. by intros ?%not_elem_of_empty.
  - assert (Hold : k ∈ dom (MultiCommenter.peersOf groupsOnly ds) →
             ∃ d0 entity, Some d0 ∈ ds ++ [d] ∧ Api.dialog_entity d0 = Some entity
                          ∧ k = peerIdString entity).
    { intros Hk. destruct (IH Hk) as (d0 & entity & Hin & Hent & ->).
      exists d0, entity. rewrite elem_of_app. auto. }
    rewrite peersOf_snoc.
    destruct (MultiCommenter.classify groupsOnly d) as [[k' rec] |] eqn:Hc; [| done].
    rewrite dom_insert_L, elem_of_union, elem_of_singleton. intros [-> | Hk]; [| auto].
    destruct d as [d |]; [| done].
    apply classify_key in Hc as (entity & Hent & ->).
    exists d, entity. rewrite elem_of_app, list_elem_of_singleton. auto.
Qed.

(** C9: [peerIdString] is a total function to strings (it has no
    [Throws] result): it gives ["channel_<n>"], ["chat_<n>"] and
    ["user_<n>"] for a channel, a chat and a user with id [n], and
    ["peer_unknown"] for an entity of any other class or without a
    readable id.  So every dialog with such an entity that a loop keeps
    gets the identifier ["peer_unknown"], and in the [Map] of one account
    they all sit under that one key: a key of the pool is
    ["peer_unknown"] or the identifier of a channel, chat or user of the
    batch, which is never ["peer_unknown"]. *)
Theorem peerIdString_total (entity : Api.Entity) :
  (∀ c n, entity = Api.EChannel c → Api.channel_id c = Some n →
          peerIdString entity = "channel_" +:+ toString n)
  ∧ (∀ c n, entity = Api.EChat c → Api.chat_id c = Some n →
            peerIdString entity = "chat_" +:+ toString n)
  ∧ (∀ u n, entity = Api.EUser u → Api.user_id u = Some n →
            peerIdString entity = "user_" +:+ toString n)
  ∧ (∀ className, entity = Api.OtherEntity className → peerIdString entity = "peer_unknown")
  ∧ (entityId entity = None → peerIdString entity = "peer_unknown")
  ∧ (is_Some (entityId entity) → peerIdString entity ≠ "peer_unknown")
  ∧ (∀ groupsOnly d p,
       Api.dialog_entity d = Some entity → entityId entity = None →
       TelegramService.classify groupsOnly (Some d) = Some p →
       TelegramService.id p = "peer_unknown")
  ∧ (∀ groupsOnly d k rec,
       Api.dialog_entity d = Some entity → entityId entity = None →
       MultiCommenter.classify groupsOnly (Some d) = Some (k, rec) →
       k = "peer_unknown")
  ∧ (∀ groupsOnly dialogs k,
       k ∈ dom (MultiCommenter.peersOf groupsOnly dialogs) →
       k = "peer_unknown"
       ∨ ∃ d e, Some d ∈ dialogs ∧ Api.dialog_entity d = Some e
                ∧ is_Some (entityId e) ∧ k = peerIdString e)
  ∧ (∀ groupsOnly dialogs,
       (∀ d e, Some d ∈ dialogs → Api.dialog_entity d = Some e → entityId e = None) →
       dom (MultiCommenter.peersOf groupsOnly dialogs) ⊆ {["peer_unknown"]}).
Proof.
  split_and!.
  - intros c n -> Hn. simpl. by rewrite Hn.
  - intros c n -> Hn. simpl. by rewrite Hn.
  - intros u n -> Hn. simpl. by rewrite Hn.
  - by intros className ->.
  - apply peerIdString_unknown.
  - apply peerIdString_known.
  - intros groupsOnly d p Hent Hid Hc.
    pose proof (classify_agree groupsOnly (Some d)) as Hag. rewrite Hc in Hag. simpl in Hag.
    apply classify_key in Hag as (e & He & ->). rewrite Hent in He. injection He as <-.
    by apply peerIdString_unknown.
  - intros groupsOnly d k rec Hent Hid Hc.
    apply classify_key in Hc as (e & He & ->). rewrite Hent in He. injection He as <-.
    by apply peerIdString_unknown.
  - intros groupsOnly dialogs k Hk.
    apply peersOf_keys in Hk as (d & e & Hin & Hent & ->).
    destruct (entityId e) as [n |] eqn:Hid.
    + right. exists d, e. rewrite Hid. eauto.
    + left. by apply peerIdString_unknown.
  - intros groupsOnly dialogs Hall k Hk.
    apply peersOf_keys in Hk as (d & e & Hin & Hent & ->).
    rewrite (peerIdString_unknown e); [by apply elem_of_singleton | eauto].
Qed.

(** Two forbidden chats, of a class the code does not know, in one
    account: one key, and the later dialog is the one that stays. *)
Lemma peerIdString_total_witness :
  peerIdString (Api.EChannel (Sim.megagroup 42)) = "channel_42"
  ∧ peerIdString (Api.OtherEntity "ChatForbidden") = "peer_unknown"
  ∧ MultiCommenter.peersOf true
      [Some (Sim.dialogOf "X" 41%positive true false (Api.OtherEntity "ChatForbidden"));
       Some (Sim.dialogOf "Y" 42%positive true false (Api.OtherEntity "ChannelForbidden"))]
    = {[ "peer_unknown" := {| MultiCommenter.title := "Y"; MultiCommenter.input := 42%positive |} ]}.
Proof.
  split_and!.
  - apply (proj1 (peerIdString_total (Api.EChannel (Sim.megagroup 42))) (Sim.megagroup 42) 42%Z);
      reflexivity.
  - destruct (peerIdString_total (Api.OtherEntity "ChatForbidden")) as (_ & _ & _ & H & _).
    by apply (H "ChatForbidden").
  - vm_compute. reflexivity.
Defined.

(** ** Refreshing the pool of [TelegramService] *)

(** Whatever the transport answers, the service leaves
    [updateWritableGroups] with the pool it had or with the pool built
    from the whole listing: no other assignment exists. *)
Lemma updateWritableGroups_pool {W : Type} (env : Env W) (w : W) (s : TelegramService.t) :
  let s' := (result (run env (TelegramService.updateWritableGroups s) w)).2 in
  s' = s
  ∨ ∃ c ds, TelegramService.client s = Some c
            ∧ (env (GetDialogs c) w).1 = Js.Value ds
            ∧ s' = TelegramService.setWritablePeers s
                     (TelegramService.nextPeers (TelegramService.groups_only s) ds).
Proof.
  unfold TelegramService.updateWritableGroups.
  destruct (TelegramService.client s) as [c |]; [| by left].
  rewrite run_bind, (run_call env (GetDialogs c)).
  destruct (env (GetDialogs c) w) as [[ds | e] w1] eqn:Henv; simpl; [right | by left].
  exists c, ds. by rewrite Henv.
Qed.

(** C10: when [getDialogs] throws inside [updateWritableGroups], the
    method returns normally and the service, its pool included, is what
    it was before the call: the only assignment to [writablePeers] comes
    after the listing and the whole loop.  The one call made is
    [getDialogs]. *)
Theorem updateWritableGroups_atomic {W : Type} (env : Env W) (w : W)
    (s : TelegramService.t) (c : ClientId) (e : Js.Error) :
  TelegramService.client s = Some c →
  (env (GetDialogs c) w).1 = Js.Throws e →
  result (run env (TelegramService.updateWritableGroups s) w) = (Js.Value tt, s)
  ∧ TelegramService.writablePeers
      (result (run env (TelegramService.updateWritableGroups s) w)).2
    = TelegramService.writablePeers s
  ∧ trace (run env (TelegramService.updateWritableGroups s) w) = [GetDialogs c].
Proof.
  intros Hc He. unfold TelegramService.updateWritableGroups. rewrite Hc.
  rewrite run_bind, (run_call env (GetDialogs c)).
  destruct (env (GetDialogs c) w) as [r w1]. simpl in He. subst r. by simpl.
Qed.

Lemma updateWritableGroups_atomic_witness :
  result (run (Sim.env (Sim.withDialogs Sim.quiet
                          (Js.Throws (Js.OtherError (Some "TIMEOUT") "Error: TIMEOUT"))))
              (TelegramService.updateWritableGroups (Sim.service [Sim.peerA; Sim.peerB])) 0%Z)
  = (Js.Value tt, Sim.service [Sim.peerA; Sim.peerB]).
Proof.
  apply (updateWritableGroups_atomic
           (Sim.env (Sim.withDialogs Sim.quiet
                       (Js.Throws (Js.OtherError (Some "TIMEOUT") "Error: TIMEOUT"))))
           0%Z (Sim.service [Sim.peerA; Sim.peerB]) 0%nat
           (Js.OtherError (Some "TIMEOUT") "Error: TIMEOUT") eq_refl eq_refl).
Defined.

(** ** The common peers *)

Lemma elem_of_keepCommon (commonIds s : gset string) (x : string) :
  x ∈ MultiCommenter.keepCommon commonIds s ↔ x ∈ commonIds ∧ x ∈ s.
Proof. unfold MultiCommenter.keepCommon. rewrite elem_of_filter. tauto. Qed.

Lemma keepCommon_intersection (commonIds s : gset string) :
  MultiCommenter.keepCommon commonIds s = commonIds ∩ s.
Proof.
  apply set_eq. intros x. by rewrite elem_of_keepCommon, elem_of_intersection.
Qed.

Lemma elem_of_foldl_keepCommon (rest : list (gset string)) (s : gset string) (x : string) :
  x ∈ foldl MultiCommenter.keepCommon s rest ↔ x ∈ s ∧ ∀ t, t ∈ rest → x ∈ t.
Proof.
  revert s. induction rest as [| t rest IH]; intros s; simpl.
  - split; [intros H; split; [done | by intros t ?%elem_of_nil] | tauto].
  - rewrite IH, elem_of_keepCommon. split.
    + intros [[Hs Ht] Hrest]. split; [done |].
      intros t' [-> | Hin]%elem_of_cons; auto.
    + intros [Hs Hall]. split_and!; [done | apply Hall; left | intros t' Hin; apply Hall; by right].
Qed.

Lemma elem_of_intersectionOf (sets : list (gset string)) (x : string) :
  sets ≠ [] → x ∈ intersectionOf sets ↔ ∀ t, t ∈ sets → x ∈ t.
Proof.
  destruct sets as [| s rest]; [done | intros _]. simpl.
  induction rest as [| t rest IH]; simpl.
  - split; [by intros Hs t ->%list_elem_of_singleton | intros H; apply H; left].
  - rewrite elem_of_intersection, IH. split.
    + intros [Ht Hall] t'. rewrite !elem_of_cons. intros [-> | [-> | Hin]].
      * apply Hall. left.
      * done.
      * apply Hall. by right.
    + intros Hall. split; [apply Hall; right; left |].
      intros t' [-> | Hin]%elem_of_cons; apply Hall; [left | right; by right].
Qed.

(** C6: for a non-empty list of accounts, the [commonIds] that [main]
    computes is the intersection of the key sets of all the pools: an id
    is in it exactly when every account's pool has it; and it is empty as
    soon as one account's pool is empty.  This is the value that [main]
    starts with, computed from the pools as they are then. *)
Theorem commonIds_is_intersection (clients : list MultiCommenter.ClientState) :
  clients ≠ [] →
  MultiCommenter.commonIdsOf clients = intersectionOf (MultiCommenter.idSets clients)
  ∧ (∀ id, id ∈ MultiCommenter.commonIdsOf clients
           ↔ ∀ c, c ∈ clients → id ∈ dom (MultiCommenter.writablePeers c))
  ∧ ((∃ c, c ∈ clients ∧ MultiCommenter.writablePeers c = ∅) →
     MultiCommenter.commonIdsOf clients = ∅)
  ∧ (∀ (W : Type) (env : Env W) (w : W) cfg watcher,
       MultiCommenter.commonIds (result (run env (MultiCommenter.startMain cfg watcher clients) w))
       = MultiCommenter.commonIdsOf clients).
Proof.
  intros Hne.
  assert (Hmem : ∀ id, id ∈ MultiCommenter.commonIdsOf clients
                   ↔ ∀ c, c ∈ clients → id ∈ dom (MultiCommenter.writablePeers c)).
  { intros id. unfold MultiCommenter.commonIdsOf, MultiCommenter.idSets.
    destruct clients as [| c0 rest]; [done |]. rewrite fmap_cons.
    rewrite elem_of_foldl_keepCommon. split.
    - intros [H0 Hrest] c [-> | Hin]%elem_of_cons; [done |].
      apply Hrest. apply list_elem_of_fmap. by exists c.
    - intros Hall. split; [apply Hall; left |].
      intros t (c & -> & Hin)%list_elem_of_fmap. apply Hall. by right. }
  split_and!; [| done | |].
  - apply set_eq. intros id. rewrite Hmem, elem_of_intersectionOf.
    + unfold MultiCommenter.idSets. split.
      * intros Hall t (c & -> & Hin)%list_elem_of_fmap. by apply Hall.
      * intros Hall c Hin. apply Hall. apply list_elem_of_fmap. by exists c.
    + unfold MultiCommenter.idSets. by destruct clients.
  - intros (c & Hin & Hempty). apply set_eq. intros id. rewrite Hmem. split.
    + intros Hall. specialize (Hall c Hin). rewrite Hempty, dom_empty_L in Hall.
      by apply not_elem_of_empty in Hall.
    + by intros ?%not_elem_of_empty.
  - intros W env w cfg watcher. unfold MultiCommenter.startMain. rewrite run_bind.
    by destruct (run env (MultiCommenter.fetchTemplates cfg watcher) w) as [[list w1] t1].
Qed.

Lemma commonIds_is_intersection_witness :
  MultiCommenter.commonIdsOf Sim.twoAccounts = intersectionOf (MultiCommenter.idSets Sim.twoAccounts)
  ∧ "channel_1" ∈ MultiCommenter.commonIdsOf Sim.twoAccounts.
Proof.
  destruct (commonIds_is_intersection Sim.twoAccounts) as (Heq & Hmem & _ & _); [done |].
  split; [exact Heq |].
  apply Hmem. intros c Hin. unfold Sim.twoAccounts in Hin.
  apply elem_of_cons in Hin as [-> | Hin]; [by vm_compute |].
  apply list_elem_of_singleton in Hin as ->. by vm_compute.
Defined.

(** ** Sending through [TelegramService] *)

(** With a client, [sendMessageTo] begins with [client.sendMessage] and
    goes on by its answer. *)
Lemma run_sendMessageTo {W : Type} (env : Env W) (w : W) (s : TelegramService.t)
    (c : ClientId) (inputPeer : Api.InputPeer) (message : string) :
  TelegramService.client s = Some c →
  run env (TelegramService.sendMessageTo s inputPeer message) w
  = match env (SendMessage c inputPeer message None) w with
    | (Js.Value _, w1) => ((true, s), w1, [SendMessage c inputPeer message None])
    | (Js.Throws e, w1) =>
        let '(x, w2, tr) := run env (TelegramService.sendFailed s inputPeer e) w1 in
        (x, w2, SendMessage c inputPeer message None :: tr)
    end.
Proof.
  intros Hc. unfold TelegramService.sendMessageTo. rewrite Hc.
  rewrite run_bind, (run_call env (SendMessage c inputPeer message None)).
  destruct (env (SendMessage c inputPeer message None) w) as [[[] | e] w1]; simpl; [done |].
  by destruct (run env (TelegramService.sendFailed s inputPeer e) w1) as [[x w2] tr].
Qed.

(** The [catch] block never sends. *)
Lemma sendFailed_no_send {W : Type} (env : Env W) (w : W) (s : TelegramService.t)
    (inputPeer : Api.InputPeer) (e : Js.Error) :
  sends (trace (run env (TelegramService.sendFailed s inputPeer e) w)) = [].
Proof.
  destruct e as [secs | m a]; unfold TelegramService.sendFailed.
  - destruct (_ && _)%bool; [| done].
    change (_ ← call ?c; ?k) with (Vis c (fun _ => k)). simpl.
    by destruct (env (Sleep _) w).
  - by destruct (Js.testAnyI TelegramService.permanentErrors (TelegramService.errorText m a)).
Qed.

(** C1, as the code has it: [TelegramService] holds no [blockedUntil]
    and reads no clock.  Every [sendMessageTo] on an initialised service
    calls [client.sendMessage] first thing, exactly once, with the handle
    and text it was given, whatever happened on earlier attempts; the
    result is a boolean, without a "skipped" value. *)
Theorem sendMessageTo_always_sends {W : Type} (env : Env W) (w : W)
    (s : TelegramService.t) (c : ClientId) (inputPeer : Api.InputPeer) (message : string) :
  TelegramService.client s = Some c →
  (∃ rest, trace (run env (TelegramService.sendMessageTo s inputPeer message) w)
           = SendMessage c inputPeer message None :: rest)
  ∧ sends (trace (run env (TelegramService.sendMessageTo s inputPeer message) w))
    = [SendMessage c inputPeer message None].
Proof.
  intros Hc. rewrite (run_sendMessageTo env w s c inputPeer message Hc).
  destruct (env (SendMessage c inputPeer message None) w) as [[[] | e] w1]; simpl.
  - split; [by exists [] | done].
  - pose proof (sendFailed_no_send env w1 s inputPeer e) as Hno.
    destruct (run env (TelegramService.sendFailed s inputPeer e) w1) as [[x w2] tr].
    unfold trace in *. simpl in *. split; [by exists tr |].
    unfold sends in *. simpl. by rewrite Hno.
Qed.

Lemma sendMessageTo_always_sends_witness :
  sends (trace (run (Sim.env (Sim.withSend Sim.quiet (Sim.floodOf 120)))
                    (TelegramService.sendMessageTo (Sim.service [Sim.peerA]) 11%positive "hello")
                    60000%Z))
  = [SendMessage 0 11%positive "hello" None].
Proof.
  apply (sendMessageTo_always_sends
           (Sim.env (Sim.withSend Sim.quiet (Sim.floodOf 120))) 60000%Z
           (Sim.service [Sim.peerA]) 0%nat 11%positive "hello" eq_refl).
Defined.

(** C1 as the specification states it fails.  At time 0 a send to peer A
    is answered by a flood wait of 120 seconds: the gate of the
    specification would hold [blockedUntil = 120], and the call sleeps
    until 121 s, the service unchanged.  The attempt of the next timer
    tick, at 60 s, is inside that window; it reaches
    [client.sendMessage] and reports success. *)
Lemma sendMessageTo_sends_while_blocked :
  run (Sim.env (Sim.withSend Sim.quiet (Sim.floodOf 120)))
      (TelegramService.sendMessageTo (Sim.service [Sim.peerA]) 11%positive "hello") 0%Z
  = ((false, Sim.service [Sim.peerA]), 121000%Z,
     [SendMessage 0 11%positive "hello" None; Sleep 121000])
  ∧ blocked (floodSignalled 0 120) 60
  ∧ run (Sim.env Sim.quiet)
        (TelegramService.sendMessageTo (Sim.service [Sim.peerA]) 11%positive "hello") 60000%Z
    = ((true, Sim.service [Sim.peerA]), 60000%Z, [SendMessage 0 11%positive "hello" None])
  ∧ sends (trace (run (Sim.env Sim.quiet)
                      (TelegramService.sendMessageTo (Sim.service [Sim.peerA]) 11%positive "hello")
                      60000%Z)) ≠ [].
Proof. split_and!; [reflexivity | by vm_compute | reflexivity | discriminate]. Qed.

(** ** Flood waits *)

(** The [catch] block on a flood wait: one sleep of
    [(seconds + 1) * 1000] ms when [0 < seconds < 3600], none otherwise;
    [false] and the service as it was in both cases. *)
Lemma run_sendFailed_flood {W : Type} (env : Env W) (w : W) (s : TelegramService.t)
    (inputPeer : Api.InputPeer) (secs : option Z) :
  run env (TelegramService.sendFailed s inputPeer (Js.FloodWaitError secs)) w
  = let seconds := Js.numOrElse secs 0 in
    if ((0 <? seconds) && (seconds <? 3600))%Z
    then ((false, s), (env (Sleep ((seconds + 1) * 1000)) w).2, [Sleep ((seconds + 1) * 1000)])
    else ((false, s), w, []).
Proof.
  unfold TelegramService.sendFailed. cbv zeta.
  destruct ((0 <? Js.numOrElse secs 0)%Z && (Js.numOrElse secs 0 <? 3600)%Z)%bool; [| done].
  change (_ ← call ?c; ?k) with (Vis c (fun _ => k)). simpl.
  by destruct (env (Sleep _) w).
Qed.


(** C4, as the code has it: on a flood wait of [seconds] (an absent
    value counts as 0) [sendMessageTo] returns [false] with the service
    unchanged in every case.  For [seconds <= 0] and for
    [3600 <= seconds] it does not sleep; for [0 < seconds < 3600] it
    sleeps once, [(seconds + 1) * 1000] milliseconds, which lies between
    [seconds] and [seconds + 2] seconds, before it returns. *)
Theorem flood_wait_sleeps_once {W : Type} (env : Env W) (w : W) (s : TelegramService.t)
    (c : ClientId) (inputPeer : Api.InputPeer) (message : string) (secs : option Z) :
  TelegramService.client s = Some c →
  (env (SendMessage c inputPeer message None) w).1 = Js.Throws (Js.FloodWaitError secs) →
  let seconds := Js.numOrElse secs 0 in
  let r := run env (TelegramService.sendMessageTo s inputPeer message) w in
  result r = (false, s)
  ∧ ((seconds ≤ 0 ∨ 3600 ≤ seconds)%Z →
     trace r = [SendMessage c inputPeer message None] ∧ slept (trace r) = 0%Z)
  ∧ ((0 < seconds < 3600)%Z →
     trace r = [SendMessage c inputPeer message None; Sleep ((seconds + 1) * 1000)]
     ∧ slept (trace r) = ((seconds + 1) * 1000)%Z
     ∧ (seconds * 1000 ≤ slept (trace r) < (seconds + 2) * 1000)%Z).
Proof.
  intros Hc Hflood seconds r. subst r.
  rewrite (run_sendMessageTo env w s c inputPeer message Hc).
  destruct (env (SendMessage c inputPeer message None) w) as [a w1].
  simpl in Hflood. subst a. rewrite run_sendFailed_flood. cbv zeta. fold seconds.
  destruct ((0 <? seconds)%Z && (seconds <? 3600)%Z)%bool eqn:Hrange.
  - apply andb_true_iff in Hrange as [H0%Z.ltb_lt H1%Z.ltb_lt].
    split_and!; [done | lia |]. intros _. unfold slept, trace. simpl.
    split_and!; [done | lia | lia | lia].
  - apply andb_false_iff in Hrange as [H0%Z.ltb_ge | H1%Z.ltb_ge];
      (split_and!; [done | done | lia]).
Qed.

Lemma flood_wait_sleeps_once_witness :
  let r := run (Sim.env (Sim.withSend Sim.quiet (Sim.floodOf 30)))
               (TelegramService.sendMessageTo (Sim.service [Sim.peerA]) 11%positive "hello") 0%Z in
  result r = (false, Sim.service [Sim.peerA])
  ∧ (30 * 1000 ≤ slept (trace r) < (30 + 2) * 1000)%Z.
Proof.
  destruct (flood_wait_sleeps_once
              (Sim.env (Sim.withSend Sim.quiet (Sim.floodOf 30))) 0%Z
              (Sim.service [Sim.peerA]) 0%nat 11%positive "hello" (Some 30%Z) eq_refl eq_refl)
    as (Hres & _ & Hsleep).
  split; [exact Hres |]. apply Hsleep. simpl. lia.
Defined.

(** C4 as the specification states it fails: a flood wait of 4000
    seconds and one of 30 seconds give the caller the same value,
    [false], so nothing read off the result can be "Failed" for the one
    and "Retried" for the other. *)
Lemma flood_outcome_not_distinguished :
  ¬ ∃ outcomeOf : bool → SendOutcome,
      outcomeOf (result (run (Sim.env (Sim.withSend Sim.quiet (Sim.floodOf 4000)))
                           (TelegramService.sendMessageTo (Sim.service [Sim.peerA])
                              11%positive "hello") 0%Z)).1 = Failed
      ∧ outcomeOf (result (run (Sim.env (Sim.withSend Sim.quiet (Sim.floodOf 30)))
                             (TelegramService.sendMessageTo (Sim.service [Sim.peerA])
                                11%positive "hello") 0%Z)).1 = Retried.
Proof. intros (outcomeOf & H4000 & H30). simpl in *. congruence. Qed.

(** ** Send restrictions *)

(** What the loops do check: the account's own [bannedRights] of a
    channel, and the [defaultBannedRights] of a basic chat. *)
Lemma send_banned_skipped (groups_only : bool) (d : Api.Dialog) :
  (∀ c r, Api.dialog_entity d = Some (Api.EChannel c) →
          Api.channel_bannedRights c = Some r → Api.send_messages r = true →
          TelegramService.classify groups_only (Some d) = None
          ∧ MultiCommenter.classify groups_only (Some d) = None)
  ∧ (∀ c r, Api.dialog_entity d = Some (Api.EChat c) →
            Api.chat_defaultBannedRights c = Some r → Api.send_messages r = true →
            TelegramService.classify groups_only (Some d) = None
            ∧ MultiCommenter.classify groups_only (Some d) = None).
Proof.
  assert (Hskip : ∀ entity, Api.dialog_entity d = Some entity →
            entitySkipped groups_only entity = true →
            TelegramService.classify groups_only (Some d) = None
            ∧ MultiCommenter.classify groups_only (Some d) = None).
  { intros entity Hent Hs.
    assert (Hts : TelegramService.classify groups_only (Some d) = None).
    { unfold TelegramService.classify.
      destruct (dialogFields groups_only (Some d)) as [[[title input] e] |] eqn:Hf; [| done].
      apply dialogFields_entity in Hf. rewrite Hent in Hf. injection Hf as <-. by rewrite Hs. }
    split; [done | by rewrite classify_agree, Hts]. }
  split; intros c r Hent Hr Hsend; apply (Hskip _ Hent); simpl; rewrite Hr; simpl; rewrite Hsend.
  - by destruct (Api.channel_left c), (Api.channel_broadcast c), (Api.channel_megagroup c).
  - by destruct (Api.chat_deactivated c), (Api.chat_left c).
Qed.

(** C3 at a discussion group whose [defaultBannedRights] forbid sending
    while the account has no [bannedRights] of its own: both loops keep
    it, as ["channel_7"]. *)
Lemma muted_megagroup_is_kept :
  sendBanned (Api.channel_defaultBannedRights (Sim.mutedMegagroup 7)) = true
  ∧ TelegramService.nextPeers true
      [Some (Sim.dialogOf "Muted" 51%positive true false (Api.EChannel (Sim.mutedMegagroup 7)))]
    = [{| TelegramService.title := "Muted"; TelegramService.input := 51%positive;
          TelegramService.id := "channel_7" |}]
  ∧ TelegramService.nextPeers false
      [Some (Sim.dialogOf "Muted" 51%positive true false (Api.EChannel (Sim.mutedMegagroup 7)))]
    = [{| TelegramService.title := "Muted"; TelegramService.input := 51%positive;
          TelegramService.id := "channel_7" |}]
  ∧ MultiCommenter.peersOf true
      [Some (Sim.dialogOf "Muted" 51%positive true false (Api.EChannel (Sim.mutedMegagroup 7)))]
    = {[ "channel_7" := {| MultiCommenter.title := "Muted"; MultiCommenter.input := 51%positive |} ]}.
Proof. split_and!; by vm_compute. Qed.

(** ** Permanent rejections *)

(** [sendMessageTo] on an error that is not a flood wait: the result is
    [false]; when the text of the error has one of the five codes, every
    peer of the pool that holds the very handle of the send is filtered
    out and the others stay in order; otherwise the service is
    unchanged.  No sleep happens. *)
Lemma sendMessageTo_rejected {W : Type} (env : Env W) (w : W) (s : TelegramService.t)
    (c : ClientId) (inputPeer : Api.InputPeer) (message : string)
    (m : option string) (a : string) :
  TelegramService.client s = Some c →
  (env (SendMessage c inputPeer message None) w).1 = Js.Throws (Js.OtherError m a) →
  let r := run env (TelegramService.sendMessageTo s inputPeer message) w in
  (result r).1 = false
  ∧ trace r = [SendMessage c inputPeer message None]
  ∧ (Js.testAnyI TelegramService.permanentErrors (TelegramService.errorText m a) = true →
     TelegramService.writablePeers (result r).2
     = List.filter (fun p => negb (bool_decide (TelegramService.input p = inputPeer)))
         (TelegramService.writablePeers s)
     ∧ ∀ p, p ∈ TelegramService.writablePeers (result r).2 → TelegramService.input p ≠ inputPeer)
  ∧ (Js.testAnyI TelegramService.permanentErrors (TelegramService.errorText m a) = false →
     (result r).2 = s).
Proof.
  intros Hc Herr r. subst r.
  rewrite (run_sendMessageTo env w s c inputPeer message Hc).
  destruct (env (SendMessage c inputPeer message None) w) as [x w1].
  simpl in Herr. subst x. unfold TelegramService.sendFailed.
  destruct (Js.testAnyI TelegramService.permanentErrors (TelegramService.errorText m a)); simpl.
  - split_and!; [done | done | | done]. intros _. split; [done |].
    intros p Hin. apply list_elem_of_In, filter_In in Hin as [_ Hp].
    apply negb_true_iff, bool_decide_eq_false in Hp. done.
  - by split_and!.
Qed.

(** A flood wait never changes the pool either. *)
Lemma sendMessageTo_flood_keeps_pool {W : Type} (env : Env W) (w : W) (s : TelegramService.t)
    (c : ClientId) (inputPeer : Api.InputPeer) (message : string) (secs : option Z) :
  TelegramService.client s = Some c →
  (env (SendMessage c inputPeer message None) w).1 = Js.Throws (Js.FloodWaitError secs) →
  (result (run env (TelegramService.sendMessageTo s inputPeer message) w)).2 = s.
Proof.
  intros Hc Hflood.
  rewrite (run_sendMessageTo env w s c inputPeer message Hc).
  destruct (env (SendMessage c inputPeer message None) w) as [a w1].
  simpl in Hflood. subst a. rewrite run_sendFailed_flood. cbv zeta.
  by destruct (_ && _)%bool.
Qed.

Example sendMessageTo_prunes_peerA :
  result (run (Sim.env (Sim.withSend Sim.quiet (Sim.rpcError "400: chat_write_forbidden (caused by messages.SendMessage)")))
              (TelegramService.sendMessageTo (Sim.service [Sim.peerA; Sim.peerB]) 11%positive "hello")
              0%Z)
  = (false, Sim.service [Sim.peerB]).
Proof. by vm_compute. Qed.

Example sendMessageTo_keeps_on_timeout :
  result (run (Sim.env (Sim.withSend Sim.quiet (Sim.rpcError "TIMEOUT")))
              (TelegramService.sendMessageTo (Sim.service [Sim.peerA; Sim.peerB]) 11%positive "hello")
              0%Z)
  = (false, Sim.service [Sim.peerA; Sim.peerB]).
Proof. by vm_compute. Qed.

(** ** Identity strings *)





Lemma idString_toString (n : Z) : MultiCommenter.idString (Some n) = toString n.
Proof.
  unfold MultiCommenter.idString, Js.orElse. simpl.
  by destruct (decide (toString n = "")).
Qed.

(** ** Loop prevention *)

(** The two sides of the comparison: the [selfId] that start-up records
    for an account whose [getMe] answers with id [n] is the decimal text
    of [n], and so is the [senderUid] of a post whose [fromId] is that
    user. *)
Lemma initClientState_selfId {W : Type} (env : Env W) (w : W) (client : ClientId)
    (phone : string) (groupsOnly : bool) (n : Z) (ds : list (option Api.Dialog)) :
  (env (GetMe client) w).1 = Js.Value (Some {| Api.me_id := Some n |}) →
  (env (GetDialogs client) (env (GetMe client) w).2).1 = Js.Value ds →
  result (run env (MultiCommenter.initClientState client phone groupsOnly) w)
  = Js.Value {| MultiCommenter.client := client; MultiCommenter.phone := phone;
                MultiCommenter.selfId := Some (toString n);
                MultiCommenter.writablePeers := MultiCommenter.peersOf groupsOnly ds |}.
Proof.
  intros Hme Hds. unfold MultiCommenter.initClientState. cbv zeta.
  rewrite run_bind, (run_call env (GetMe client)).
  destruct (env (GetMe client) w) as [me w1]. simpl in Hme, Hds. subst me. cbn [fst snd].
  rewrite run_bind. unfold MultiCommenter.getWritablePeers.
  rewrite run_bind, (run_call env (GetDialogs client)).
  destruct (env (GetDialogs client) w1) as [r w2]. simpl in Hds. subst r.
  rewrite <- (idString_toString n). reflexivity.
Qed.

Lemma senderUid_of_user (event : MultiCommenter.NewMessageEvent) (m : Api.Message) (n : Z) :
  MultiCommenter.event_message event = Some m →
  Api.message_fromId m = Some (Api.PeerUser (Some n)) →
  MultiCommenter.senderUid event = Some (toString n).
Proof.
  intros Hm Hfrom. unfold MultiCommenter.senderUid. rewrite Hm. simpl. rewrite Hfrom.
  by rewrite idString_toString.
Qed.




(** The same post by a stranger is answered, here by the first account. *)
Example stranger_post_answered :
  trace (run (Sim.env Sim.quiet)
             (MultiCommenter.onNewMessage Sim.runtime 0 (Sim.mainState ["nice"]) (Sim.postBy 900))
             0%Z)
  = [MathRandom; MathRandom; MathRandom; SendMessage 0 11%positive "nice" (Some 77%Z)].
Proof. by vm_compute. Qed.

(** ** Random picks *)

#[local] Arguments MultiCommenter.fetchTemplates : simpl never.
#[local] Arguments MultiCommenter.pickRandom : simpl never.
#[local] Arguments MultiCommenter.pickComment : simpl never.

Lemma at_random_in_range {T : Type} (arr : list T) (r : Q) :
  arr ≠ [] → (0 <= r)%Q → (r < 1)%Q →
  ∃ x, MultiCommenter.at_random arr r = Some x ∧ x ∈ arr.
Proof.
  intros Hne H0 H1. unfold MultiCommenter.at_random.
  set (n := Z.of_nat (length arr)).
  assert (Hn : (0 < n)%Z) by (subst n; destruct arr; [done | simpl; lia]).
  assert (Hlo : (0 ≤ Qfloor (r * inject_Z n))%Z).
  { change 0%Z with (Qfloor (inject_Z 0)). apply Qfloor_resp_le.
    apply Qmult_le_0_compat; [done |].
    change 0%Q with (inject_Z 0). rewrite <- Zle_Qle. lia. }
  assert (Hhi : (Qfloor (r * inject_Z n) < n)%Z).
  { rewrite Zlt_Qlt. eapply Qle_lt_trans; [apply Qfloor_le |].
    apply Qlt_le_trans with (1 * inject_Z n)%Q; [| rewrite Qmult_1_l; apply Qle_refl].
    apply Qmult_lt_compat_r; [| done]. change 0%Q with (inject_Z 0). rewrite <- Zlt_Qlt. lia. }
  destruct (Qfloor (r * inject_Z n) <? 0)%Z eqn:Hneg; [apply Z.ltb_lt in Hneg; lia |].
  destruct (lookup_lt_is_Some_2 arr (Z.to_nat (Qfloor (r * inject_Z n)))) as [x Hx].
  { subst n. lia. }
  exists x. split; [done |]. by eapply list_elem_of_lookup_2.
Qed.

(** ** The template cache *)

Lemma textsOf_omap (res : list (option Api.Message)) :
  MultiCommenter.textsOf res = omap MultiCommenter.templateOf res.
Proof.
  unfold MultiCommenter.textsOf.
  cut (∀ acc, foldl (fun texts m =>
                 match MultiCommenter.templateOf m with
                 | Some clean => texts ++ [clean]
                 | None => texts
                 end) acc res
              = acc ++ omap MultiCommenter.templateOf res).
  { intros H. by rewrite H. }
  induction res as [| m res IH]; intros acc; simpl.
  - by rewrite app_nil_r.
  - rewrite IH. destruct (MultiCommenter.templateOf m); [| done]. by rewrite <- app_assoc.
Qed.

Lemma templateOf_nonempty (m : option Api.Message) (t : string) :
  MultiCommenter.templateOf m = Some t → t ≠ "".
Proof.
  unfold MultiCommenter.templateOf. destruct m as [m |]; [| done].
  destruct (decide (Js.trim _ = "")); [done |]. by intros [= <-].
Qed.



(** The tick of the timer, by what its fetch returned. *)
Lemma run_commentsTimerTick {W : Type} (env : Env W) (w : W)
    (cfg : MultiCommenter.Runtime) (watcher : ClientId) (st : MultiCommenter.Main) :
  result (run env (MultiCommenter.commentsTimerTick cfg watcher st) w)
  = match result (run env (MultiCommenter.fetchTemplates cfg watcher) w) with
    | [] => st
    | list => MultiCommenter.setCommentsCache st list
    end.
Proof.
  unfold MultiCommenter.commentsTimerTick. rewrite run_bind.
  destruct (run env (MultiCommenter.fetchTemplates cfg watcher) w) as [[list w1] t1].
  unfold result. simpl. by destruct list.
Qed.


(** The handler leaves with the variables it found, or with the cache
    that [pickComment] left at the moment it ran; [clients] (so every
    pool) and [commonIds] are never assigned. *)
Lemma onNewMessage_result {W : Type} (env : Env W) (w : W)
    (cfg : MultiCommenter.Runtime) (watcher : ClientId) (st : MultiCommenter.Main)
    (event : MultiCommenter.NewMessageEvent) :
  result (run env (MultiCommenter.onNewMessage cfg watcher st event) w) = st
  ∨ ∃ w1, result (run env (MultiCommenter.onNewMessage cfg watcher st event) w)
          = MultiCommenter.setCommentsCache st
              (result (run env (MultiCommenter.pickComment cfg watcher
                                  (MultiCommenter.commentsCache st)) w1)).1.
Proof.
  unfold MultiCommenter.onNewMessage.
  destruct (MultiCommenter.event_chat event) as [[chat |] | e]; [| by left | by left].
  destruct (negb _); [by left |].
  destruct (MultiCommenter.authoredByUs _ _); [by left |].
  rewrite run_bind, (run_call env MathRandom).
  destruct (env MathRandom w) as [r w1]. simpl.
  destruct (Qlt_le_dec r (MultiCommenter.ignore_probability cfg)); [by left |].
  right. exists w1. rewrite run_bind.
  destruct (run env (MultiCommenter.pickComment cfg watcher (MultiCommenter.commentsCache st)) w1)
    as [[[cache comment] w2] t2]. simpl.
  destruct (decide (comment = "")); [done |].
  rewrite run_bind.
  destruct (run env (MultiCommenter.pickRandom _) w2) as [[[chosen |] w3] t3]; simpl; [| done].
  destruct (MultiCommenter.getClientInputForPeer _ chosen) as [inputPeer |]; simpl; [| done].
  change (_ ← call ?c; ?k) with (Vis c (fun _ => k)). simpl.
  by destruct (env (SendMessage _ _ _ _) w3).
Qed.





Example start_gives_nice :
  result (run (Sim.env (Sim.withMessages Sim.quiet (Js.Value [Sim.textPost "nice"])))
              (MultiCommenter.startMain Sim.runtime 0 Sim.twoAccounts) 0%Z)
  = Sim.mainState ["nice"].
Proof. reflexivity. Qed.

(** The refresh inside the handler: with nothing in the cache and a
    source that has two posts with text, the event leaves the cache with
    both, in the order fetched, and replies with one of them. *)
Example on_demand_refresh_fills_cache :
  let env := Sim.env (Sim.withMessages Sim.quiet
                        (Js.Value [Some {| Api.message_fromId := None; Api.message_id := Some 1%Z;
                                           Api.message_message := Some "  first "; Api.message_text := None |};
                                   None;
                                   Some {| Api.message_fromId := None; Api.message_id := Some 2%Z;
                                           Api.message_message := Some "   "; Api.message_text := None |};
                                   Some {| Api.message_fromId := None; Api.message_id := Some 3%Z;
                                           Api.message_message := None; Api.message_text := Some "second" |}])) in
  let r := run env (MultiCommenter.onNewMessage Sim.runtime 0 (Sim.mainState []) (Sim.postBy 900)) 0%Z in
  MultiCommenter.commentsCache (result r) = ["first"; "second"]
  ∧ sends (trace r) = [SendMessage 0 11%positive "first" (Some 77%Z)].
Proof. by vm_compute. Qed.

(** ** Replies that fail *)

(** A flood wait on a reply is not waited for: the handler returns. *)
Example reply_flood_dropped :
  let env := Sim.env (Sim.withSend Sim.quiet (Sim.floodOf 30)) in
  let r := run env (MultiCommenter.onNewMessage Sim.runtime 0 (Sim.mainState ["nice"])
                      (Sim.postBy 900)) 0%Z in
  slept (trace r) = 0%Z ∧ result r = Sim.mainState ["nice"].
Proof. split; by vm_compute. Qed.

(** The handler never assigns [clients] nor [commonIds]: the pools of
    all accounts and the common ids are after the event what they were
    before, whatever the send answered. *)
Lemma onNewMessage_keeps_pools {W : Type} (env : Env W) (w : W)
    (cfg : MultiCommenter.Runtime) (watcher : ClientId) (st : MultiCommenter.Main)
    (event : MultiCommenter.NewMessageEvent) :
  MultiCommenter.clients (result (run env (MultiCommenter.onNewMessage cfg watcher st event) w))
  = MultiCommenter.clients st
  ∧ MultiCommenter.commonIds (result (run env (MultiCommenter.onNewMessage cfg watcher st event) w))
    = MultiCommenter.commonIds st.
Proof. by destruct (onNewMessage_result env w cfg watcher st event) as [-> | [w1 ->]]. Qed.

(** C8 at a reply of the multi-account handler that the platform rejects
    with [CHAT_WRITE_FORBIDDEN], an error that makes
    [TelegramService.sendMessageTo] filter the peer out: the send is made
    by the first account to its handle for ["channel_1"], and afterwards
    that account's pool still maps ["channel_1"] to the same handle and
    the common ids still have it. *)
Lemma reply_rejection_keeps_peer :
  let env := Sim.env (Sim.withSend Sim.quiet (Sim.rpcError "CHAT_WRITE_FORBIDDEN")) in
  let r := run env (MultiCommenter.onNewMessage Sim.runtime 0 (Sim.mainState ["nice"])
                      (Sim.postBy 900)) 0%Z in
  Js.testAnyI TelegramService.permanentErrors
    (TelegramService.errorText (Some "CHAT_WRITE_FORBIDDEN") "RPCError: CHAT_WRITE_FORBIDDEN") = true
  ∧ sends (trace r) = [SendMessage 0 11%positive "nice" (Some 77%Z)]
  ∧ result r = Sim.mainState ["nice"]
  ∧ (MultiCommenter.clients (result r) !! 0%nat
       ≫= fun c => MultiCommenter.getClientInputForPeer "channel_1" c) = Some 11%positive
  ∧ "channel_1" ∈ MultiCommenter.commonIds (result r).
Proof. split_and!; by vm_compute. Qed.

(** * Further properties of the code *)

(** ** Timer periods *)




(** ** Session file names *)

Lemma isFsSafe_replacement (a : ascii) : isFsSafe (if isFsSafe a then a else "_"%char) = true.
Proof. by destruct (isFsSafe a) eqn:H. Qed.

(** [sanitizeForFs]: the result has the length of the name and holds
    only digits, ASCII letters, [_], [.] and [-]; a name that is already
    made of these is returned as it is, so sanitising twice changes
    nothing more. *)
Theorem sanitizeForFs_safe (name : string) :
  String.length (sanitizeForFs name) = String.length name
  ∧ fsSafe (sanitizeForFs name) = true
  ∧ (fsSafe name = true → sanitizeForFs name = name)
  ∧ sanitizeForFs (sanitizeForFs name) = sanitizeForFs name.
Proof.
  assert (Hlen : ∀ s, String.length (sanitizeForFs s) = String.length s).
  { induction s as [| a r IH]; simpl; [done | by rewrite IH]. }
  assert (Hsafe : ∀ s, fsSafe (sanitizeForFs s) = true).
  { induction s as [| a r IH]; simpl; [done |]. by rewrite isFsSafe_replacement, IH. }
  assert (Hid : ∀ s, fsSafe s = true → sanitizeForFs s = s).
  { induction s as [| a r IH]; simpl; [done |].
    intros [Ha Hr]%andb_true_iff. by rewrite Ha, IH. }
  split_and!; [apply Hlen | apply Hsafe | apply Hid | apply Hid, Hsafe].
Qed.

Lemma sanitizeForFs_safe_witness :
  sanitizeForFs "+1 (555) 010-99" = "_1__555__010-99"
  ∧ sanitizeForFs "user_1.session" = "user_1.session".
Proof.
  split; [reflexivity |].
  destruct (sanitizeForFs_safe "user_1.session") as (_ & _ & Hid & _). by apply Hid.
Defined.

(** ** Trimming *)

Lemma trimStart_head (s : string) (a : ascii) (r : string) :
  Js.trimStart s = String a r → Js.isWhiteSpace a = false.
Proof.
  induction s as [| b t IH]; simpl; [done |].
  destruct (Js.isWhiteSpace b) eqn:Hb; [done |]. by intros [= <- <-].
Qed.

Lemma trimEnd_head (a : ascii) (r : string) :
  Js.trimEnd (String a r) = "" ∨ ∃ r', Js.trimEnd (String a r) = String a r'.
Proof.
  simpl. destruct (Js.trimEnd r) as [| b t].
  - destruct (Js.isWhiteSpace a); [by left | right; by eexists].
  - right. by eexists.
Qed.

Lemma trimEnd_idem (s : string) : Js.trimEnd (Js.trimEnd s) = Js.trimEnd s.
Proof.
  induction s as [| a r IH]; [done |]. simpl.
  destruct (Js.trimEnd r) as [| b t] eqn:Hr.
  - destruct (Js.isWhiteSpace a) eqn:Ha; [done |]. simpl. by rewrite Ha.
  - change (Js.trimEnd (String a (String b t))) with
      (match Js.trimEnd (String b t) with
       | EmptyString => if Js.isWhiteSpace a then EmptyString else String a EmptyString
       | r' => String a r'
       end).
    by rewrite IH.
Qed.

Lemma trim_idem (s : string) : Js.trim (Js.trim s) = Js.trim s.
Proof.
  unfold Js.trim. destruct (Js.trimStart s) as [| a r] eqn:Hs; [done |].
  pose proof (trimStart_head s a r Hs) as Ha.
  destruct (trimEnd_head a r) as [-> | [r' Hr']]; [done |].
  assert (Hstart : Js.trimStart (Js.trimEnd (String a r)) = Js.trimEnd (String a r)).
  { rewrite Hr'. simpl. by rewrite Ha. }
  by rewrite Hstart, trimEnd_idem.
Qed.

(** ** Fetching the templates *)

Lemma templateOf_trimmed (m : option Api.Message) (t : string) :
  MultiCommenter.templateOf m = Some t → t ≠ "" ∧ Js.trim t = t.
Proof.
  intros Hm. split; [by eapply templateOf_nonempty |].
  unfold MultiCommenter.templateOf in Hm. destruct m as [m |]; [| done].
  destruct (decide (Js.trim _ = "")); [done |]. injection Hm as <-. apply trim_idem.
Qed.

Lemma omap_length_le {A B : Type} (f : A → option B) (l : list A) :
  (length (omap f l) ≤ length l)%nat.
Proof. induction l as [| x l IH]; csimpl; [done |]. destruct (f x); csimpl; lia. Qed.

(** [fetchCommentTemplates], by the two answers of the transport. *)
Lemma run_fetchCommentTemplates {W : Type} (env : Env W) (w : W)
    (client : ClientId) (source : string) (limit : Z) :
  run env (MultiCommenter.fetchCommentTemplates client source limit) w
  = match (env (GetEntity client source) w).1 with
    | Js.Value entity =>
        let l := Z.max 1 (Z.min 500 limit) in
        let w1 := (env (GetEntity client source) w).2 in
        (match (env (GetMessages client entity l) w1).1 with
         | Js.Value res => MultiCommenter.textsOf res
         | Js.Throws _ => []
         end,
         (env (GetMessages client entity l) w1).2,
         [GetEntity client source; GetMessages client entity l])
    | Js.Throws _ => ([], (env (GetEntity client source) w).2, [GetEntity client source])
    end.
Proof.
  unfold MultiCommenter.fetchCommentTemplates.
  rewrite run_bind, (run_call env (GetEntity client source)).
  destruct (env (GetEntity client source) w) as [[entity | e] w1]; cbn [fst snd]; [| done].
  cbv beta iota zeta. rewrite run_bind, (run_call env (GetMessages client entity _)).
  by destruct (env (GetMessages client entity (Z.max 1 (Z.min 500 limit))) w1)
    as [[res | e] w2].
Qed.

(** [fetchCommentTemplates] never fails and returns only trimmed,
    non-empty texts: each one is what trimming itself gives, so none
    begins or ends with white space; there are no more of them than
    messages fetched. *)
Theorem fetchCommentTemplates_trimmed {W : Type} (env : Env W) (w : W)
    (client : ClientId) (source : string) (limit : Z) :
  Forall (fun t => t ≠ "" ∧ Js.trim t = t)
    (result (run env (MultiCommenter.fetchCommentTemplates client source limit) w))
  ∧ ∀ entity res,
      (env (GetEntity client source) w).1 = Js.Value entity →
      (env (GetMessages client entity (Z.max 1 (Z.min 500 limit)))
           (env (GetEntity client source) w).2).1 = Js.Value res →
      (length (result (run env (MultiCommenter.fetchCommentTemplates client source limit) w))
       ≤ length res)%nat.
Proof.
  rewrite run_fetchCommentTemplates.
  assert (Htexts : ∀ res, Forall (fun t => t ≠ "" ∧ Js.trim t = t) (MultiCommenter.textsOf res)).
  { intros res. rewrite textsOf_omap. apply Forall_forall. intros t Hin.
    apply list_elem_of_omap in Hin as (m & _ & Hm). by apply (templateOf_trimmed m). }
  split.
  - destruct (env (GetEntity client source) w).1 as [entity | e]; [| by apply Forall_nil].
    cbv zeta. unfold result. cbn [fst].
    destruct (env (GetMessages client entity _) _).1 as [res | e];
      [apply Htexts | by apply Forall_nil].
  - intros entity res He Hr. rewrite He. cbv zeta. unfold result. cbn [fst]. rewrite Hr.
    rewrite textsOf_omap. apply omap_length_le.
Qed.

(** The number of messages asked for is the limit brought into the
    range from 1 to 500; when the source cannot be resolved no messages
    are asked for and the result is empty, as it is when reading the
    messages fails. *)
Theorem fetchCommentTemplates_calls {W : Type} (env : Env W) (w : W)
    (client : ClientId) (source : string) (limit : Z) :
  let r := run env (MultiCommenter.fetchCommentTemplates client source limit) w in
  (∃ e, (env (GetEntity client source) w).1 = Js.Throws e
        ∧ trace r = [GetEntity client source] ∧ result r = [])
  ∨ (∃ entity l,
        (env (GetEntity client source) w).1 = Js.Value entity
        ∧ trace r = [GetEntity client source; GetMessages client entity l]
        ∧ (1 ≤ l ≤ 500)%Z
        ∧ ((1 ≤ limit ≤ 500)%Z → l = limit)
        ∧ ((limit < 1)%Z → l = 1%Z)
        ∧ ((500 < limit)%Z → l = 500%Z)
        ∧ (∀ e, (env (GetMessages client entity l) (env (GetEntity client source) w).2).1
                = Js.Throws e → result r = [])).
Proof.
  intros r. subst r. rewrite run_fetchCommentTemplates.
  destruct (env (GetEntity client source) w).1 as [entity | e] eqn:He.
  - right. exists entity, (Z.max 1 (Z.min 500 limit)). cbv zeta. unfold result, trace. cbn [fst snd].
    split_and!; [done | done | lia | lia | lia | lia | lia |]. by intros e ->.
  - left. by exists e.
Qed.

Lemma fetchCommentTemplates_calls_witness :
  trace (run (Sim.env Sim.quiet) (MultiCommenter.fetchCommentTemplates 0 "templates" 100000) 0%Z)
  = [GetEntity 0 "templates"; GetMessages 0 (Api.OtherEntity "Channel") 500].
Proof.
  destruct (fetchCommentTemplates_calls (Sim.env Sim.quiet) 0%Z 0%nat "templates" 100000)
    as [(e & He & _) | (entity & l & He & Htr & _ & _ & _ & Hbig & _)]; [discriminate He |].
  injection He as <-. rewrite Htr. by rewrite (Hbig eq_refl).
Defined.

(** ** What is in a pool *)

Lemma entitySkipped_false (groups_only : bool) (entity : Api.Entity) :
  entitySkipped groups_only entity = false
  ↔ match entity with
    | Api.EChannel c =>
        Api.channel_left c = false ∧ Api.channel_broadcast c = false
        ∧ Api.channel_megagroup c = true ∧ sendBanned (Api.channel_bannedRights c) = false
    | Api.EChat c =>
        Api.chat_deactivated c = false ∧ Api.chat_left c = false
        ∧ sendBanned (Api.chat_defaultBannedRights c) = false
    | Api.EUser u => groups_only = false ∧ Api.user_bot u = false
    | Api.OtherEntity _ => True
    end.
Proof.
  destruct entity as [c | c | u | name]; simpl.
  - destruct (Api.channel_left c), (Api.channel_broadcast c), (Api.channel_megagroup c);
      simpl; intuition congruence.
  - destruct (Api.chat_deactivated c), (Api.chat_left c); simpl; intuition congruence.
  - destruct groups_only; intuition congruence.
  - done.
Qed.

Lemma classify_Some (groups_only : bool) (d : Api.Dialog) (p : TelegramService.WritablePeer) :
  TelegramService.classify groups_only (Some d) = Some p
  ↔ ∃ entity,
      Api.dialog_inputEntity d = Some (TelegramService.input p)
      ∧ Api.dialog_entity d = Some entity
      ∧ TelegramService.title p
        = Js.orElse (Api.dialog_title d) (Js.orElse (Api.dialog_name d) "Unknown")
      ∧ TelegramService.id p = peerIdString entity
      ∧ (if groups_only then Api.dialog_isGroup d = true
         else Api.dialog_isGroup d = true ∨ Api.dialog_isUser d = true)
      ∧ entitySkipped groups_only entity = false.
Proof.
  unfold TelegramService.classify, dialogFields. destruct p as [t i k]. simpl.
  destruct (Api.dialog_inputEntity d) as [i' |], (Api.dialog_entity d) as [e |];
    try (split; [done | by intros (entity & ? & ? & _)]).
  split.
  - intros H. exists e.
    destruct groups_only, (Api.dialog_isGroup d), (Api.dialog_isUser d); simpl in H; try done;
      destruct (entitySkipped _ e); try done; injection H as <- <- <-; auto 10.
  - intros (entity & [= ->] & [= <-] & -> & -> & Hkind & Hskip).
    destruct groups_only, (Api.dialog_isGroup d), (Api.dialog_isUser d); simpl;
      rewrite ?Hskip; try done; destruct Hkind; done.
Qed.

(** The pool that a refresh builds, member by member: a peer is in it
    exactly when the listing has a dialog with that input handle, whose
    entity gives that identifier, which is of an accepted kind (a group;
    a group or a user without [groups_only]) and which passes the
    checks of its class: a channel that is not left, not broadcast, a
    megagroup and without a send ban of the account; a chat that is
    active, not left and without a default send ban; a user that is not
    a bot, and only without [groups_only]; any other entity unchecked.
    The title is the dialog's, or its name, or ["Unknown"]. *)
Theorem nextPeers_members (groups_only : bool) (dialogs : list (option Api.Dialog))
    (p : TelegramService.WritablePeer) :
  p ∈ TelegramService.nextPeers groups_only dialogs
  ↔ ∃ d entity,
      Some d ∈ dialogs
      ∧ Api.dialog_inputEntity d = Some (TelegramService.input p)
      ∧ Api.dialog_entity d = Some entity
      ∧ TelegramService.title p
        = Js.orElse (Api.dialog_title d) (Js.orElse (Api.dialog_name d) "Unknown")
      ∧ TelegramService.id p = peerIdString entity
      ∧ (if groups_only then Api.dialog_isGroup d = true
         else Api.dialog_isGroup d = true ∨ Api.dialog_isUser d = true)
      ∧ match entity with
        | Api.EChannel c =>
            Api.channel_left c = false ∧ Api.channel_broadcast c = false
            ∧ Api.channel_megagroup c = true ∧ sendBanned (Api.channel_bannedRights c) = false
        | Api.EChat c =>
            Api.chat_deactivated c = false ∧ Api.chat_left c = false
            ∧ sendBanned (Api.chat_defaultBannedRights c) = false
        | Api.EUser u => groups_only = false ∧ Api.user_bot u = false
        | Api.OtherEntity _ => True
        end.
Proof.
  rewrite nextPeers_omap, list_elem_of_omap. split.
  - intros ([d |] & Hin & Hc); [| done].
    apply classify_Some in Hc as (entity & Hi & He & Ht & Hk & Hkind & Hskip).
    exists d, entity. by rewrite <- entitySkipped_false.
  - intros (d & entity & Hin & Hi & He & Ht & Hk & Hkind & Hpass).
    exists (Some d). split; [done |]. apply classify_Some. exists entity.
    by rewrite entitySkipped_false.
Qed.

Example nextPeers_members_example :
  TelegramService.nextPeers false
    [Scenario.groupA; None; Scenario.alice;
     Some (Sim.dialogOf "News" 31%positive true false (Api.EChannel (Sim.broadcastChannel 9)));
     Scenario.groupB]
  = [Sim.peerA;
     {| TelegramService.title := "Alice"; TelegramService.input := 13%positive;
        TelegramService.id := "user_3" |};
     Sim.peerB].
Proof. reflexivity. Qed.

Lemma nextPeers_origin (groups_only : bool) (dialogs : list (option Api.Dialog))
    (p : TelegramService.WritablePeer) :
  p ∈ TelegramService.nextPeers groups_only dialogs →
  ∃ d entity,
    Some d ∈ dialogs
    ∧ TelegramService.title p
      = Js.orElse (Api.dialog_title d) (Js.orElse (Api.dialog_name d) "Unknown")
    ∧ TelegramService.id p = peerIdString entity
    ∧ entitySkipped groups_only entity = false.
Proof.
  rewrite nextPeers_omap, list_elem_of_omap. intros ([d |] & Hin & Hc); [| done].
  apply classify_Some in Hc as (entity & _ & _ & Ht & Hk & _ & Hskip). by exists d, entity.
Qed.

(** The identifier of an entity names its class. *)
Lemma peerIdString_prefix (entity : Api.Entity) :
  String.prefix "user_" (peerIdString entity) = true → ∃ u, entity = Api.EUser u.
Proof.
  destruct entity as [c | c | u | name]; simpl.
  - by destruct (Api.channel_id c).
  - by destruct (Api.chat_id c).
  - by exists u.
  - done.
Qed.

Lemma orElse_Unknown (a b : option string) : Js.orElse a (Js.orElse b "Unknown") ≠ "".
Proof.
  unfold Js.orElse. destruct a as [x |], b as [y |]; repeat case_decide; done.
Qed.

(** With [groups_only] no direct conversation enters a pool, whatever
    the flags of the dialog say: no identifier of the list pool and no
    key of the map pool begins with ["user_"].  With or without it, no
    peer has an empty title. *)
Theorem groups_only_excludes_users (dialogs : list (option Api.Dialog)) :
  (∀ p, p ∈ TelegramService.nextPeers true dialogs →
        String.prefix "user_" (TelegramService.id p) = false)
  ∧ (∀ k, k ∈ dom (MultiCommenter.peersOf true dialogs) → String.prefix "user_" k = false)
  ∧ (∀ groups_only p, p ∈ TelegramService.nextPeers groups_only dialogs →
                      TelegramService.title p ≠ "").
Proof.
  assert (Hlist : ∀ p, p ∈ TelegramService.nextPeers true dialogs →
                       String.prefix "user_" (TelegramService.id p) = false).
  { intros p (d & entity & _ & _ & Hk & Hskip)%nextPeers_origin.
    destruct (String.prefix "user_" (TelegramService.id p)) eqn:Hpre; [| done].
    rewrite Hk in Hpre. apply peerIdString_prefix in Hpre as [u ->]. done. }
  split_and!; [done | |].
  - intros k Hk. apply elem_of_dom in Hk as [rec Hrec].
    assert (Hex : ∃ p, p ∈ TelegramService.nextPeers true dialogs ∧ TelegramService.id p = k).
    { clear Hlist. revert rec Hrec. induction dialogs as [| d ds IH] using rev_ind; intros rec.
      - unfold MultiCommenter.peersOf. simpl. by rewrite lookup_empty.
      - rewrite peersOf_snoc, classify_agree, nextPeers_omap, omap_app. csimpl.
        destruct (TelegramService.classify true d) as [q |] eqn:Hq; csimpl.
        + destruct (decide (TelegramService.id q = k)) as [<- | Hne].
          * intros _. exists q. split; [| done]. rewrite elem_of_app, list_elem_of_singleton. auto.
          * rewrite lookup_insert_ne by done. intros Hrec.
            destruct (IH _ Hrec) as (p & Hp & <-). rewrite nextPeers_omap in Hp.
            exists p. split; [| done]. rewrite elem_of_app. auto.
        + rewrite app_nil_r. intros Hrec. destruct (IH _ Hrec) as (p & Hp & <-).
          rewrite nextPeers_omap in Hp. by exists p. }
    destruct Hex as (p & Hp & <-). by apply Hlist.
  - intros groups_only p (d & entity & _ & Ht & _)%nextPeers_origin.
    rewrite Ht. apply orElse_Unknown.
Qed.

(** The two scripts build the same pool from the same listing: the map
    of [multi_commenter] holds, under each identifier, the title and the
    handle of the last peer with that identifier in the list of
    [TelegramService], and nothing else; so it has at most as many
    entries as the list has peers. *)
Theorem peersOf_last (groups_only : bool) (dialogs : list (option Api.Dialog)) (k : string) :
  MultiCommenter.peersOf groups_only dialogs !! k
  = (fun p => {| MultiCommenter.title := TelegramService.title p;
                 MultiCommenter.input := TelegramService.input p |})
    <$> last (filter (fun p => TelegramService.id p = k)
                (TelegramService.nextPeers groups_only dialogs))
  ∧ (size (MultiCommenter.peersOf groups_only dialogs)
     ≤ length (TelegramService.nextPeers groups_only dialogs))%nat.
Proof.
  split.
  - induction dialogs as [| d ds IH] using rev_ind.
    + unfold MultiCommenter.peersOf. simpl. by rewrite lookup_empty.
    + rewrite peersOf_snoc, classify_agree, nextPeers_omap, omap_app, filter_app.
      rewrite nextPeers_omap in IH. csimpl.
      destruct (TelegramService.classify groups_only d) as [q |]; csimpl.
      * destruct (decide (TelegramService.id q = k)) as [<- | Hne].
        -- rewrite lookup_insert_eq. rewrite filter_cons_True by done.
           by rewrite filter_nil, last_snoc.
        -- rewrite lookup_insert_ne by done. rewrite filter_cons_False by done.
           by rewrite filter_nil, app_nil_r.
      * by rewrite filter_nil, app_nil_r.
  - induction dialogs as [| d ds IH] using rev_ind.
    + unfold MultiCommenter.peersOf. simpl. by rewrite map_size_empty.
    + rewrite peersOf_snoc, classify_agree, nextPeers_omap, omap_app, length_app.
      rewrite nextPeers_omap in IH. csimpl.
      destruct (TelegramService.classify groups_only d) as [q |]; csimpl; [| lia].
      destruct (MultiCommenter.peersOf groups_only ds !! TelegramService.id q) eqn:Hq.
      * rewrite map_size_insert_Some by (by eexists). lia.
      * rewrite map_size_insert_None by done. lia.
Qed.

(** ** What a send does to the pool *)

(** The three ways [sendMessageTo] can end. *)
Lemma sendFailed_shape {W : Type} (env : Env W) (w : W) (s : TelegramService.t)
    (inputPeer : Api.InputPeer) (e : Js.Error) :
  result (run env (TelegramService.sendFailed s inputPeer e) w) = (false, s)
  ∨ result (run env (TelegramService.sendFailed s inputPeer e) w)
    = (false, TelegramService.setWritablePeers s
         (List.filter (fun p => negb (bool_decide (TelegramService.input p = inputPeer)))
            (TelegramService.writablePeers s))).
Proof.
  destruct e as [secs | m a].
  - rewrite run_sendFailed_flood. cbv zeta. left. by destruct (_ && _)%bool.
  - unfold TelegramService.sendFailed.
    destruct (Js.testAnyI TelegramService.permanentErrors (TelegramService.errorText m a));
      [by right | by left].
Qed.

Lemma sendMessageTo_shape {W : Type} (env : Env W) (w : W) (s : TelegramService.t)
    (inputPeer : Api.InputPeer) (message : string) :
  let r := result (run env (TelegramService.sendMessageTo s inputPeer message) w) in
  r = (true, s) ∨ r = (false, s)
  ∨ r = (false, TelegramService.setWritablePeers s
           (List.filter (fun p => negb (bool_decide (TelegramService.input p = inputPeer)))
              (TelegramService.writablePeers s))).
Proof.
  cbv zeta. destruct (TelegramService.client s) as [c |] eqn:Hc.
  - rewrite (run_sendMessageTo env w s c inputPeer message Hc).
    destruct (env (SendMessage c inputPeer message None) w) as [[[] | e] w1]; [by left |].
    right. pose proof (sendFailed_shape env w1 s inputPeer e) as Hfail.
    by destruct (run env (TelegramService.sendFailed s inputPeer e) w1) as [[x w2] tr].
  - unfold TelegramService.sendMessageTo. rewrite Hc. right. apply sendFailed_shape.
Qed.

(** Whatever the transport answers, [sendMessageTo] leaves the client
    and the policy alone, adds no peer, and removes no peer other than
    those that hold the handle it was given; when it returns [true] the
    pool is what it was. *)
Theorem sendMessageTo_pool {W : Type} (env : Env W) (w : W) (s : TelegramService.t)
    (inputPeer : Api.InputPeer) (message : string) :
  let r := result (run env (TelegramService.sendMessageTo s inputPeer message) w) in
  TelegramService.client r.2 = TelegramService.client s
  ∧ TelegramService.groups_only r.2 = TelegramService.groups_only s
  ∧ (TelegramService.writablePeers r.2 = TelegramService.writablePeers s
     ∨ TelegramService.writablePeers r.2
       = List.filter (fun p => negb (bool_decide (TelegramService.input p = inputPeer)))
           (TelegramService.writablePeers s))
  ∧ (∀ p, p ∈ TelegramService.writablePeers r.2 → p ∈ TelegramService.writablePeers s)
  ∧ (∀ p, p ∈ TelegramService.writablePeers s → TelegramService.input p ≠ inputPeer →
          p ∈ TelegramService.writablePeers r.2)
  ∧ (r.1 = true → r.2 = s).
Proof.
  intros r. destruct (sendMessageTo_shape env w s inputPeer message) as [Hr | [Hr | Hr]];
    fold r in Hr; rewrite Hr;
    cbn [fst snd TelegramService.setWritablePeers
           TelegramService.client TelegramService.groups_only TelegramService.writablePeers].
  - split_and!; auto.
  - split_and!; auto.
  - split_and!; [done | done | by right | | | done].
    + intros p Hin. apply list_elem_of_In, filter_In in Hin as [Hin _]. by apply list_elem_of_In.
    + intros p Hin Hne. apply list_elem_of_In, filter_In. split; [by apply list_elem_of_In |].
      by apply negb_true_iff, bool_decide_eq_false.
Qed.

(** ** Which errors prune *)

Lemma toUpper_app (a b : string) : Js.toUpper (a +:+ b) = Js.toUpper a +:+ Js.toUpper b.
Proof. induction a as [| x a IH]; simpl; [done | by rewrite IH]. Qed.

Lemma prefix_app (p s : string) : String.prefix p (p +:+ s) = true.
Proof.
  induction p as [| x p IH]; simpl; [by destruct s |].
  by destruct (Ascii.ascii_dec x x).
Qed.

Lemma includes_prefix (p s : string) : String.prefix p s = true → Js.includes p s = true.
Proof. destruct s; simpl; by intros ->. Qed.

Lemma includes_app (p pre post : string) : Js.includes p (pre +:+ p +:+ post) = true.
Proof.
  induction pre as [| x pre IH].
  - change ("" +:+ p +:+ post) with (p +:+ post). apply includes_prefix, prefix_app.
  - change (String x pre +:+ p +:+ post) with (String x (pre +:+ p +:+ post)).
    cbn [Js.includes]. rewrite IH. apply orb_true_r.
Qed.

Lemma toUpper_nonempty (x : string) : Js.toUpper x ≠ "" → x ≠ "".
Proof. by destruct x. Qed.

Lemma app_nonempty (pre x post : string) : x ≠ "" → pre +:+ x +:+ post ≠ "".
Proof. destruct pre, x; simpl; done. Qed.

(** The five codes are looked for anywhere in the text of the error and
    in any letter case: whenever the message of a failed send contains
    one of them, [sendMessageTo] returns [false] and the pool afterwards
    is the old one without the peers that hold the handle of the send. *)
Theorem permanent_code_prunes {W : Type} (env : Env W) (w : W) (s : TelegramService.t)
    (c : ClientId) (inputPeer : Api.InputPeer) (message : string)
    (pre x post a : string) :
  TelegramService.client s = Some c →
  Js.toUpper x ∈ TelegramService.permanentErrors →
  (env (SendMessage c inputPeer message None) w).1
  = Js.Throws (Js.OtherError (Some (pre +:+ x +:+ post)) a) →
  let r := result (run env (TelegramService.sendMessageTo s inputPeer message) w) in
  r.1 = false
  ∧ TelegramService.writablePeers r.2
    = List.filter (fun p => negb (bool_decide (TelegramService.input p = inputPeer)))
        (TelegramService.writablePeers s)
  ∧ ∀ p, p ∈ TelegramService.writablePeers r.2 → TelegramService.input p ≠ inputPeer.
Proof.
  intros Hc Hcode Herr r. subst r.
  assert (Hx : x ≠ "").
  { apply toUpper_nonempty. intros Heq. rewrite Heq in Hcode.
    unfold TelegramService.permanentErrors in Hcode.
    repeat (apply elem_of_cons in Hcode as [Hcode | Hcode]; [done |]).
    by apply elem_of_nil in Hcode. }
  assert (Htest : Js.testAnyI TelegramService.permanentErrors
                    (TelegramService.errorText (Some (pre +:+ x +:+ post)) a) = true).
  { unfold TelegramService.errorText, Js.truthy.
    rewrite bool_decide_eq_true_2 by (by apply app_nonempty). cbn [default].
    unfold Js.testAnyI. apply existsb_exists. exists (Js.toUpper x).
    split; [by apply list_elem_of_In |]. cbv beta. unfold id.
    rewrite !toUpper_app. apply includes_app. }
  destruct (sendMessageTo_rejected env w s c inputPeer message _ a Hc Herr)
    as (Hres & _ & Hprune & _).
  destruct (Hprune Htest) as [Hpool Hnone]. done.
Qed.

Lemma permanent_code_prunes_witness :
  result (run (Sim.env (Sim.withSend Sim.quiet
                          (Sim.rpcError "400: You_Blocked_User (caused by messages.SendMessage)")))
              (TelegramService.sendMessageTo (Sim.service [Sim.peerA; Sim.peerB]) 12%positive "hello")
              0%Z)
  = (false, Sim.service [Sim.peerA]).
Proof.
  destruct (permanent_code_prunes
              (Sim.env (Sim.withSend Sim.quiet
                          (Sim.rpcError "400: You_Blocked_User (caused by messages.SendMessage)")))
              0%Z (Sim.service [Sim.peerA; Sim.peerB]) 0%nat 12%positive "hello"
              "400: " "You_Blocked_User" " (caused by messages.SendMessage)"
              "RPCError: 400: You_Blocked_User (caused by messages.SendMessage)"
              eq_refl) as (Hres & Hpool & _).
  - unfold TelegramService.permanentErrors. simpl. rewrite !elem_of_cons. tauto.
  - reflexivity.
  - reflexivity.
Defined.

(** ** Posting to a random peer *)

Lemma at_random_Some {T : Type} (arr : list T) (r : Q) (x : T) :
  TelegramService.at_random arr r = Some x → x ∈ arr.
Proof.
  unfold TelegramService.at_random. destruct (_ <? 0)%Z; [done |].
  intros H. by eapply list_elem_of_lookup_2.
Qed.

(** With a client, the calls of [sendMessageTo] are the send and then
    no further send. *)
Lemma sendMessageTo_trace {W : Type} (env : Env W) (w : W) (s : TelegramService.t)
    (c : ClientId) (inputPeer : Api.InputPeer) (message : string) :
  TelegramService.client s = Some c →
  ∃ rest, trace (run env (TelegramService.sendMessageTo s inputPeer message) w)
          = SendMessage c inputPeer message None :: rest
          ∧ sends rest = [].
Proof.
  intros Hc. rewrite (run_sendMessageTo env w s c inputPeer message Hc).
  destruct (env (SendMessage c inputPeer message None) w) as [[[] | e] w1].
  - by exists [].
  - pose proof (sendFailed_no_send env w1 s inputPeer e) as Hno.
    destruct (run env (TelegramService.sendFailed s inputPeer e) w1) as [[x w2] tr].
    by exists tr.
Qed.

Lemma run_pickRandomPeer {W : Type} (env : Env W) (w : W) (s : TelegramService.t) :
  run env (TelegramService.pickRandomPeer s) w
  = match TelegramService.writablePeers s with
    | [] => (None, w, [])
    | _ => (TelegramService.at_random (TelegramService.writablePeers s) (env MathRandom w).1,
            (env MathRandom w).2, [MathRandom])
    end.
Proof.
  unfold TelegramService.pickRandomPeer.
  destruct (TelegramService.writablePeers s) as [| p ps]; [done |].
  rewrite run_bind, (run_call env MathRandom). by destruct (env MathRandom w).
Qed.

(** [sendRandomMessage]: with an empty pool it returns [false] at once,
    without a draw and without a send; with peers in the pool it draws
    once and sends the text, once, to the handle of one of them. *)
Theorem sendRandomMessage_target {W : Type} (env : Env W) (w : W) (s : TelegramService.t)
    (c : ClientId) (text : string) :
  unitInterval env →
  TelegramService.client s = Some c →
  (TelegramService.writablePeers s = [] →
   run env (TelegramService.sendRandomMessage s text) w = ((false, s), w, []))
  ∧ (TelegramService.writablePeers s ≠ [] →
     ∃ p rest,
       p ∈ TelegramService.writablePeers s
       ∧ trace (run env (TelegramService.sendRandomMessage s text) w)
         = MathRandom :: SendMessage c (TelegramService.input p) text None :: rest
       ∧ sends rest = []).
Proof.
  intros Hrand Hc. unfold TelegramService.sendRandomMessage. rewrite run_bind, run_pickRandomPeer.
  split.
  - by intros ->.
  - intros Hne. destruct (TelegramService.writablePeers s) as [| p0 ps] eqn:Hpool; [done |].
    destruct (Hrand w) as [H0 H1].
    destruct (at_random_in_range (p0 :: ps) _ Hne H0 H1) as (p & Hp & Hin).
    change (MultiCommenter.at_random (p0 :: ps) (env MathRandom w).1)
      with (TelegramService.at_random (p0 :: ps) (env MathRandom w).1) in Hp.
    rewrite Hp. cbv beta iota.
    destruct (sendMessageTo_trace env (env MathRandom w).2 s c (TelegramService.input p) text Hc)
      as (rest & Htr & Hno).
    destruct (run env (TelegramService.sendMessageTo s (TelegramService.input p) text)
                (env MathRandom w).2) as [[x w2] tr].
    unfold trace in *. cbn [snd] in *. subst tr. by exists p, rest.
Qed.

Lemma sendRandomMessage_target_witness :
  run (Sim.env Sim.quiet) (TelegramService.sendRandomMessage (Sim.service []) "hello") 0%Z
  = ((false, Sim.service []), 0%Z, []).
Proof.
  assert (Hrand : unitInterval (Sim.env Sim.quiet)).
  { intros w. split; [vm_compute; discriminate | vm_compute; reflexivity]. }
  destruct (sendRandomMessage_target (Sim.env Sim.quiet) 0%Z (Sim.service []) 0%nat "hello"
              Hrand eq_refl) as [Hempty _].
  by apply Hempty.
Defined.

(** ** The post cycle of [poster] *)

Lemma sends_app (t1 t2 : list Call) : sends (t1 ++ t2) = sends t1 ++ sends t2.
Proof. unfold sends. apply List.filter_app. Qed.

Lemma usableMessages_elem (messages : option (list (option string))) (t : string) :
  t ∈ Poster.usableMessages messages
  ↔ t ≠ "" ∧ ∃ m, m ∈ default [] messages ∧ t = Js.trim (Js.orElse m "").
Proof.
  unfold Poster.usableMessages. rewrite list_elem_of_In, filter_In, in_map_iff.
  rewrite negb_true_iff, bool_decide_eq_false. split.
  - intros ((m & <- & Hin) & Hne). split; [done |]. exists m. by rewrite list_elem_of_In.
  - intros (Hne & m & Hin & ->). split; [| done]. exists m. by rewrite <- list_elem_of_In.
Qed.

Lemma run_safeTask {S W : Type} (env : Env W) (w : W) (fn : Prog (Js.Result unit * S)) :
  run env (Poster.safeTask fn) w
  = ((result (run env fn w)).2, (run env fn w).1.2, trace (run env fn w)).
Proof.
  unfold Poster.safeTask. rewrite run_bind.
  destruct (run env fn w) as [[[r s] w1] t]. unfold result, trace. simpl. by rewrite app_nil_r.
Qed.

Lemma trace_safeTask {S W : Type} (env : Env W) (w : W) (fn : Prog (Js.Result unit * S)) :
  trace (run env (Poster.safeTask fn) w) = trace (run env fn w).
Proof. by rewrite run_safeTask. Qed.

Lemma result_safeTask {S W : Type} (env : Env W) (w : W) (fn : Prog (Js.Result unit * S)) :
  result (run env (Poster.safeTask fn) w) = (result (run env fn w)).2.
Proof. by rewrite run_safeTask. Qed.

Lemma run_poster_pickRandom {T W : Type} (env : Env W) (w : W) (arr : list T) :
  run env (Poster.pickRandom arr) w
  = match arr with
    | [] => (None, w, [])
    | _ => (TelegramService.at_random arr (env MathRandom w).1, (env MathRandom w).2, [MathRandom])
    end.
Proof.
  unfold Poster.pickRandom. destruct arr as [| x xs]; [done |].
  rewrite run_bind, (run_call env MathRandom). by destruct (env MathRandom w).
Qed.

Lemma updateWritableGroups_trace {W : Type} (env : Env W) (w : W) (s : TelegramService.t) :
  sends (trace (run env (TelegramService.updateWritableGroups s) w)) = [].
Proof.
  unfold TelegramService.updateWritableGroups.
  destruct (TelegramService.client s) as [c |]; [| done].
  rewrite run_bind, (run_call env (GetDialogs c)).
  by destruct (env (GetDialogs c) w) as [[ds | e] w1].
Qed.

(** One post cycle, step by step. *)
Lemma run_postMessage {W : Type} (env : Env W) (w : W)
    (messages : option (list (option string))) (service : TelegramService.t) :
  run env (Poster.postMessage messages service) w
  = match Poster.usableMessages messages with
    | [] => ((Js.Value tt, service), w, [])
    | list =>
        let '(text, w1, t1) := run env (Poster.pickRandom list) w in
        if negb (Js.truthy text) then ((Js.Value tt, service), w1, t1)
        else
          let '((ok, s1), w2, t2) :=
            run env (TelegramService.sendRandomMessage service (default "" text)) w1 in
          if negb ok then
            let '(x, w3, t3) := run env (TelegramService.updateWritableGroups s1) w2 in
            (x, w3, t1 ++ t2 ++ t3)
          else ((Js.Value tt, s1), w2, t1 ++ t2)
    end.
Proof.
  unfold Poster.postMessage. cbv zeta.
  destruct (Poster.usableMessages messages) as [| m ms]; [done |].
  cbn [length Nat.eqb]. rewrite run_bind.
  destruct (run env (Poster.pickRandom (m :: ms)) w) as [[text w1] t1].
  destruct (negb (Js.truthy text)); [cbn [run]; by rewrite app_nil_r |].
  rewrite run_bind.
  destruct (run env (TelegramService.sendRandomMessage service (default "" text)) w1)
    as [[[ok s1] w2] t2].
  destruct ok; cbn [negb].
  - cbn [run]. by rewrite app_nil_r.
  - by destruct (run env (TelegramService.updateWritableGroups s1) w2) as [[x w3] t3].
Qed.

(** The sends of [sendRandomMessage], whatever the draw. *)
Lemma sendRandomMessage_sends {W : Type} (env : Env W) (w : W) (s : TelegramService.t)
    (text : string) :
  sends (trace (run env (TelegramService.sendRandomMessage s text) w)) = []
  ∨ ∃ c p, TelegramService.client s = Some c ∧ p ∈ TelegramService.writablePeers s
           ∧ sends (trace (run env (TelegramService.sendRandomMessage s text) w))
             = [SendMessage c (TelegramService.input p) text None].
Proof.
  unfold TelegramService.sendRandomMessage. rewrite run_bind, run_pickRandomPeer.
  destruct (TelegramService.writablePeers s) as [| p0 ps] eqn:Hpool; [by left |].
  destruct (TelegramService.at_random (p0 :: ps) (env MathRandom w).1) as [p |] eqn:Hp;
    [| by left].
  apply at_random_Some in Hp. cbv beta iota.
  destruct (TelegramService.client s) as [c |] eqn:Hc.
  - right. exists c, p. split_and!; [done | done |].
    destruct (sendMessageTo_trace env (env MathRandom w).2 s c (TelegramService.input p) text Hc)
      as (rest & Htr & Hno).
    destruct (run env (TelegramService.sendMessageTo s (TelegramService.input p) text)
                (env MathRandom w).2) as [[x w2] tr].
    unfold trace in *. cbn [snd] in *. subst tr.
    change ([MathRandom] ++ ?l) with (MathRandom :: l). unfold sends in *. simpl. by rewrite Hno.
  - left. unfold TelegramService.sendMessageTo. rewrite Hc.
    pose proof (sendFailed_no_send env (env MathRandom w).2 s (TelegramService.input p)
                  TelegramService.noClient) as Hno.
    destruct (run env (TelegramService.sendFailed s (TelegramService.input p)
                         TelegramService.noClient) (env MathRandom w).2) as [[x w2] tr].
    unfold trace in *. cbn [snd] in *. rewrite sends_app, Hno. done.
Qed.

(** A post cycle with nothing to say does nothing: when the list of
    messages is missing, empty, or holds only blank entries, no call is
    made, the service is unchanged and the task ends normally. *)
Theorem postTask_nothing_to_post {W : Type} (env : Env W) (w : W)
    (messages : option (list (option string))) (service : TelegramService.t) :
  Forall (fun m => Js.trim (Js.orElse m "") = "") (default [] messages) →
  run env (Poster.postTask messages service) w = (service, w, []).
Proof.
  intros Hblank.
  assert (Hnone : Poster.usableMessages messages = []).
  { destruct (Poster.usableMessages messages) as [| t ts] eqn:Hu; [done |].
    assert (Hin : t ∈ Poster.usableMessages messages) by (rewrite Hu; left).
    apply usableMessages_elem in Hin as (Hne & m & Hm & ->).
    rewrite Forall_forall in Hblank. by specialize (Hblank m Hm). }
  unfold Poster.postTask. rewrite run_safeTask, run_postMessage, Hnone. done.
Qed.

Lemma postTask_nothing_to_post_witness :
  run (Sim.env Sim.quiet)
      (Poster.postTask (Some [Some "   "; None; Some ""]) (Sim.service [Sim.peerA])) 0%Z
  = (Sim.service [Sim.peerA], 0%Z, []).
Proof.
  apply (postTask_nothing_to_post (Sim.env Sim.quiet) 0%Z (Some [Some "   "; None; Some ""])
           (Sim.service [Sim.peerA])).
  repeat (apply Forall_cons_2; [reflexivity |]). apply Forall_nil_2.
Defined.

(** A post cycle sends at most one message; what it sends is one of the
    configured messages, trimmed and not empty, to the handle of a peer
    that was in the pool when the cycle began. *)
Theorem postTask_sends {W : Type} (env : Env W) (w : W)
    (messages : option (list (option string))) (service : TelegramService.t) :
  sends (trace (run env (Poster.postTask messages service) w)) = []
  ∨ ∃ c p text,
      TelegramService.client service = Some c
      ∧ p ∈ TelegramService.writablePeers service
      ∧ text ≠ ""
      ∧ (∃ m, m ∈ default [] messages ∧ text = Js.trim (Js.orElse m ""))
      ∧ sends (trace (run env (Poster.postTask messages service) w))
        = [SendMessage c (TelegramService.input p) text None].
Proof.
  unfold Poster.postTask. rewrite trace_safeTask, run_postMessage.
  destruct (Poster.usableMessages messages) as [| m ms] eqn:Hu; [by left |].
  rewrite run_poster_pickRandom. cbv beta iota.
  destruct (TelegramService.at_random (m :: ms) (env MathRandom w).1) as [text |] eqn:Ht;
    [| by left].
  apply at_random_Some in Ht. rewrite <- Hu in Ht.
  apply usableMessages_elem in Ht as [Hne Hfrom].
  unfold Js.truthy. rewrite bool_decide_eq_true_2 by done. cbn [negb default from_option id].
  pose proof (sendRandomMessage_sends env (env MathRandom w).2 service text) as Hsend.
  destruct (run env (TelegramService.sendRandomMessage service text) (env MathRandom w).2)
    as [[[ok s1] w2] t2].
  assert (Htotal : ∀ t3, sends t3 = [] → sends ([MathRandom] ++ t2 ++ t3) = sends t2).
  { intros t3 H3. rewrite !sends_app, H3, app_nil_r. done. }
  assert (Hall : sends (trace (if negb ok
                   then let '(x, w3, t3) :=
                          run env (TelegramService.updateWritableGroups s1) w2 in
                        (x, w3, [MathRandom] ++ t2 ++ t3)
                   else ((Js.Value tt, s1), w2, [MathRandom] ++ t2))) = sends t2).
  { destruct ok; cbn [negb].
    - unfold trace. cbn [snd]. rewrite sends_app. done.
    - pose proof (updateWritableGroups_trace env w2 s1) as Hup.
      destruct (run env (TelegramService.updateWritableGroups s1) w2) as [[x w3] t3].
      unfold trace in *. cbn [snd] in *. by apply Htotal. }
  rewrite Hall. unfold trace in Hsend. cbn [snd] in Hsend.
  destruct Hsend as [-> | (c & p & Hc & Hp & ->)]; [by left | right].
  exists c, p, text. by split_and!.
Qed.

Lemma run_updateWritableGroups_ok {W : Type} (env : Env W) (w : W) (s : TelegramService.t)
    (c : ClientId) (ds : list (option Api.Dialog)) :
  TelegramService.client s = Some c →
  (env (GetDialogs c) w).1 = Js.Value ds →
  run env (TelegramService.updateWritableGroups s) w
  = ((Js.Value tt,
      TelegramService.setWritablePeers s
        (TelegramService.nextPeers (TelegramService.groups_only s) ds)),
     (env (GetDialogs c) w).2, [GetDialogs c]).
Proof.
  intros Hc Hds. unfold TelegramService.updateWritableGroups. rewrite Hc.
  rewrite run_bind, (run_call env (GetDialogs c)).
  destruct (env (GetDialogs c) w) as [r w1]. simpl in Hds. by subst r.
Qed.

Lemma run_sendRandomMessage {W : Type} (env : Env W) (w : W) (s : TelegramService.t)
    (text : string) :
  run env (TelegramService.sendRandomMessage s text) w
  = match TelegramService.writablePeers s with
    | [] => ((false, s), w, [])
    | _ =>
        match TelegramService.at_random (TelegramService.writablePeers s) (env MathRandom w).1 with
        | None => ((false, s), (env MathRandom w).2, [MathRandom])
        | Some p =>
            let '(x, w2, t) :=
              run env (TelegramService.sendMessageTo s (TelegramService.input p) text)
                  (env MathRandom w).2 in
            (x, w2, MathRandom :: t)
        end
    end.
Proof.
  unfold TelegramService.sendRandomMessage. rewrite run_bind, run_pickRandomPeer.
  destruct (TelegramService.writablePeers s) as [| p0 ps]; [done |].
  by destruct (TelegramService.at_random (p0 :: ps) (env MathRandom w).1).
Qed.

(** A post cycle whose send does not succeed refreshes the pool at once:
    with messages to post and a listing that works, when the pool is
    empty or the platform refuses the send, the cycle ends with the pool
    built from the listing, whatever the failed send pruned; so a peer
    removed after a permanent rejection is back when the listing still
    passes it.  When the send succeeds the service is left as it was and
    no listing is asked for. *)
Theorem postTask_refreshes_after_failure {W : Type} (env : Env W) (w : W)
    (messages : option (list (option string))) (service : TelegramService.t)
    (c : ClientId) (ds : list (option Api.Dialog)) :
  unitInterval env →
  TelegramService.client service = Some c →
  Poster.usableMessages messages ≠ [] →
  (∀ w', (env (GetDialogs c) w').1 = Js.Value ds) →
  ((TelegramService.writablePeers service = []
    ∨ ∀ w' i m, ∃ e, (env (SendMessage c i m None) w').1 = Js.Throws e) →
   TelegramService.writablePeers (result (run env (Poster.postTask messages service) w))
   = TelegramService.nextPeers (TelegramService.groups_only service) ds)
  ∧ (TelegramService.writablePeers service ≠ [] →
     (∀ w' i m, (env (SendMessage c i m None) w').1 = Js.Value tt) →
     result (run env (Poster.postTask messages service) w) = service
     ∧ GetDialogs c ∉ trace (run env (Poster.postTask messages service) w)).
Proof.
  intros Hrand Hc Husable Hds. unfold Poster.postTask.
  rewrite result_safeTask, trace_safeTask, run_postMessage.
  destruct (Poster.usableMessages messages) as [| m0 ms] eqn:Hu; [done |].
  rewrite run_poster_pickRandom. cbv beta iota.
  destruct (Hrand w) as [H0 H1].
  destruct (at_random_in_range (m0 :: ms) _ Husable H0 H1) as (text & Ht & Hin).
  change (MultiCommenter.at_random (m0 :: ms) (env MathRandom w).1)
    with (TelegramService.at_random (m0 :: ms) (env MathRandom w).1) in Ht.
  rewrite Ht. rewrite <- Hu in Hin. apply usableMessages_elem in Hin as [Hne _].
  unfold Js.truthy. rewrite bool_decide_eq_true_2 by done. cbn [negb default from_option id].
  set (w1 := (env MathRandom w).2).
  rewrite run_sendRandomMessage.
  assert (Hrefresh : ∀ s1 w2 t,
            TelegramService.client s1 = Some c →
            TelegramService.groups_only s1 = TelegramService.groups_only service →
            TelegramService.writablePeers
              (result (let '(x, w3, t3) := run env (TelegramService.updateWritableGroups s1) w2 in
                       (x, w3, [MathRandom] ++ t ++ t3))).2
            = TelegramService.nextPeers (TelegramService.groups_only service) ds).
  { intros s1 w2 t Hc1 Hg1. rewrite (run_updateWritableGroups_ok env w2 s1 c ds Hc1 (Hds w2)).
    unfold result. cbn. by rewrite Hg1. }
  split.
  - intros Hfail. destruct (TelegramService.writablePeers service) as [| p0 ps] eqn:Hpool.
    { cbn [negb]. by apply Hrefresh. }
    destruct Hfail as [? | Hthrow]; [done |].
    destruct (Hrand w1) as [H0' H1'].
    destruct (at_random_in_range (p0 :: ps) _ ltac:(done) H0' H1') as (p & Hp & _).
    change (MultiCommenter.at_random (p0 :: ps) (env MathRandom w1).1)
      with (TelegramService.at_random (p0 :: ps) (env MathRandom w1).1) in Hp.
    rewrite Hp. rewrite (run_sendMessageTo env _ service c _ text Hc).
    destruct (Hthrow (env MathRandom w1).2 (TelegramService.input p) text) as [e He].
    destruct (env (SendMessage c (TelegramService.input p) text None) (env MathRandom w1).2)
      as [r w2]. simpl in He. subst r.
    pose proof (sendFailed_shape env w2 service (TelegramService.input p) e) as Hshape.
    destruct (run env (TelegramService.sendFailed service (TelegramService.input p) e) w2)
      as [[[ok s1] w3] t3]. unfold result in Hshape. cbn [fst] in Hshape.
    destruct Hshape as [[= -> ->] | [= -> ->]]; cbn [negb]; by apply Hrefresh.
  - intros Hpool Hok. destruct (TelegramService.writablePeers service) as [| p0 ps] eqn:Hp0;
      [done |].
    destruct (Hrand w1) as [H0' H1'].
    destruct (at_random_in_range (p0 :: ps) _ Hpool H0' H1') as (p & Hp & _).
    change (MultiCommenter.at_random (p0 :: ps) (env MathRandom w1).1)
      with (TelegramService.at_random (p0 :: ps) (env MathRandom w1).1) in Hp.
    rewrite Hp. rewrite (run_sendMessageTo env _ service c _ text Hc).
    specialize (Hok (env MathRandom w1).2 (TelegramService.input p) text).
    destruct (env (SendMessage c (TelegramService.input p) text None) (env MathRandom w1).2)
      as [r w2]. simpl in Hok. subst r. cbn [negb]. unfold result, trace. cbn [fst snd].
    split; [done |]. cbn [app]. intros Hin.
    repeat (apply elem_of_cons in Hin as [Hin | Hin]; [discriminate Hin |]).
    by apply elem_of_nil in Hin.
Qed.

(** Peer A refuses the post with [CHAT_WRITE_FORBIDDEN]; the listing
    still shows A and B, and after the cycle the pool has both again. *)
Lemma postTask_refreshes_after_failure_witness :
  TelegramService.writablePeers
    (result (run (Sim.env (Sim.withDialogs
                             (Sim.withSend Sim.quiet (Sim.rpcError "CHAT_WRITE_FORBIDDEN"))
                             (Js.Value [Scenario.groupA; Scenario.groupB])))
                 (Poster.postTask (Some [Some " hello "]) (Sim.service [Sim.peerA; Sim.peerB]))
                 0%Z))
  = [Sim.peerA; Sim.peerB].
Proof.
  assert (Hrand : unitInterval (Sim.env (Sim.withDialogs
            (Sim.withSend Sim.quiet (Sim.rpcError "CHAT_WRITE_FORBIDDEN"))
            (Js.Value [Scenario.groupA; Scenario.groupB])))).
  { intros w. split; [vm_compute; discriminate | vm_compute; reflexivity]. }
  destruct (postTask_refreshes_after_failure _ 0%Z (Some [Some " hello "])
              (Sim.service [Sim.peerA; Sim.peerB]) 0%nat
              [Scenario.groupA; Scenario.groupB] Hrand eq_refl) as [Hfail _].
  - discriminate.
  - by intros w'.
  - rewrite Hfail; [reflexivity |]. right. intros w' i m. by eexists.
Defined.

(** ** Random picks of the scripts *)

Lemma run_multi_pickRandom {T W : Type} (env : Env W) (w : W) (arr : list T) :
  run env (MultiCommenter.pickRandom arr) w
  = match arr with
    | [] => (None, w, [])
    | _ => (MultiCommenter.at_random arr (env MathRandom w).1, (env MathRandom w).2, [MathRandom])
    end.
Proof.
  unfold MultiCommenter.pickRandom. destruct arr as [| x xs]; [done |].
  rewrite run_bind, (run_call env (MathRandom)). by destruct (env MathRandom w).
Qed.

(** [pickRandom], in both scripts: on an empty array it gives nothing and
    draws nothing; on any other array it draws once and gives an element
    of the array, never [undefined]. *)
Theorem pickRandom_member {T W : Type} (env : Env W) (w : W) (arr : list T) :
  unitInterval env →
  (arr = [] →
   run env (MultiCommenter.pickRandom arr) w = (None, w, [])
   ∧ run env (Poster.pickRandom arr) w = (None, w, []))
  ∧ (arr ≠ [] →
     ∃ x, x ∈ arr
          ∧ run env (MultiCommenter.pickRandom arr) w
            = (Some x, (env MathRandom w).2, [MathRandom])
          ∧ run env (Poster.pickRandom arr) w = (Some x, (env MathRandom w).2, [MathRandom])).
Proof.
  intros Hrand. split; [by intros -> |]. intros Hne.
  destruct (Hrand w) as [H0 H1].
  destruct (at_random_in_range arr _ Hne H0 H1) as (x & Hx & Hin).
  exists x. rewrite run_multi_pickRandom, run_poster_pickRandom.
  change (TelegramService.at_random arr (env MathRandom w).1)
    with (MultiCommenter.at_random arr (env MathRandom w).1).
  rewrite Hx. by destruct arr.
Qed.

Lemma pickRandom_member_witness :
  ∃ x, x ∈ ["a"; "b"; "c"]
       ∧ run (Sim.env (Sim.withRandom Sim.quiet (2 # 3)))
             (MultiCommenter.pickRandom ["a"; "b"; "c"]) 0%Z
         = (Some x, 0%Z, [MathRandom]).
Proof.
  assert (Hrand : unitInterval (Sim.env (Sim.withRandom Sim.quiet (2 # 3)))).
  { intros w. split; [vm_compute; discriminate | vm_compute; reflexivity]. }
  destruct (pickRandom_member (Sim.env (Sim.withRandom Sim.quiet (2 # 3))) 0%Z ["a"; "b"; "c"] Hrand)
    as [_ Hpick].
  destruct Hpick as (x & Hin & Hrun & _); [discriminate |].
  exists x. split; [exact Hin | exact Hrun].
Defined.

(** ** Starting the accounts *)

(** [initClientState], by the answers of the transport. *)
Lemma run_initClientState {W : Type} (env : Env W) (w : W) (client : ClientId)
    (phone : string) (groupsOnly : bool) :
  let w1 := (env (GetMe client) w).2 in
  let w2 := (env (GetDialogs client) w1).2 in
  let w3 := (env (GetDialogs client) w2).2 in
  let made selfId wp :=
    Js.Value {| MultiCommenter.client := client; MultiCommenter.phone := phone;
                MultiCommenter.selfId := selfId; MultiCommenter.writablePeers := wp |} in
  run env (MultiCommenter.initClientState client phone groupsOnly) w
  = match (env (GetMe client) w).1, (env (GetDialogs client) w1).1 with
    | Js.Value me, Js.Value ds =>
        (made (Some (MultiCommenter.idString (me ≫= Api.me_id)))
              (MultiCommenter.peersOf groupsOnly ds),
         w2, [GetMe client; GetDialogs client])
    | Js.Value _, Js.Throws _ =>
        (match (env (GetDialogs client) w2).1 with
         | Js.Value ds => made None (MultiCommenter.peersOf groupsOnly ds)
         | Js.Throws e => Js.Throws e
         end, w3, [GetMe client; GetDialogs client; GetDialogs client])
    | Js.Throws _, Js.Value ds =>
        (made None (MultiCommenter.peersOf groupsOnly ds), w2, [GetMe client; GetDialogs client])
    | Js.Throws _, Js.Throws e => (Js.Throws e, w2, [GetMe client; GetDialogs client])
    end.
Proof.
  cbv zeta. unfold MultiCommenter.initClientState, MultiCommenter.getWritablePeers. cbv zeta.
  rewrite run_bind, (run_call env (GetMe client)).
  destruct (env (GetMe client) w) as [[me | e] w1]; cbn [fst snd]; cbv beta iota.
  - rewrite !run_bind, (run_call env (GetDialogs client)).
    destruct (env (GetDialogs client) w1) as [[ds | e] w2]; cbn [fst snd]; cbv beta iota;
      [done |].
    cbn [run]. cbv beta iota. rewrite !run_bind, (run_call env (GetDialogs client)).
    by destruct (env (GetDialogs client) w2) as [[ds | e2] w3].
  - rewrite !run_bind, (run_call env (GetDialogs client)).
    by destruct (env (GetDialogs client) w1) as [[ds | e2] w2].
Qed.

(** An account is kept whenever one of at most two listings works, but
    it gets a [selfId] only when [getMe] and the first listing both
    succeed: after a good [getMe], a first listing that fails is retried
    once, and the account is then recorded without [selfId].  The
    account recorded carries the client and the phone given; the
    function fails only when the last listing it asked for failed. *)
Theorem initClientState_selfId_lost {W : Type} (env : Env W) (w : W) (client : ClientId)
    (phone : string) (groupsOnly : bool) (me : option Api.Me) (e : Js.Error)
    (ds : list (option Api.Dialog)) :
  (env (GetMe client) w).1 = Js.Value me →
  (env (GetDialogs client) (env (GetMe client) w).2).1 = Js.Throws e →
  (env (GetDialogs client) (env (GetDialogs client) (env (GetMe client) w).2).2).1 = Js.Value ds →
  result (run env (MultiCommenter.initClientState client phone groupsOnly) w)
  = Js.Value {| MultiCommenter.client := client; MultiCommenter.phone := phone;
                MultiCommenter.selfId := None;
                MultiCommenter.writablePeers := MultiCommenter.peersOf groupsOnly ds |}
  ∧ trace (run env (MultiCommenter.initClientState client phone groupsOnly) w)
    = [GetMe client; GetDialogs client; GetDialogs client].
Proof.
  intros Hme Hfirst Hsecond. pose proof (run_initClientState env w client phone groupsOnly) as Hrun.
  cbv zeta in Hrun. rewrite Hrun, Hme, Hfirst, Hsecond. done.
Qed.

Lemma initClientState_selfId_lost_witness :
  result (run (Scenario.flakyDialogs 1 (Js.Value (Some {| Api.me_id := Some 501%Z |}))
                 [Scenario.groupA])
              (MultiCommenter.initClientState 0 "+1000" true) 0%nat)
  = Js.Value {| MultiCommenter.client := 0%nat; MultiCommenter.phone := "+1000";
                MultiCommenter.selfId := None;
                MultiCommenter.writablePeers := MultiCommenter.peersOf true [Scenario.groupA] |}.
Proof.
  apply (initClientState_selfId_lost
           (Scenario.flakyDialogs 1 (Js.Value (Some {| Api.me_id := Some 501%Z |}))
              [Scenario.groupA])
           0%nat 0%nat "+1000" true (Some {| Api.me_id := Some 501%Z |})
           (Js.OtherError (Some "TIMEOUT") "Error: TIMEOUT") [Scenario.groupA]
           eq_refl eq_refl eq_refl).
Defined.

Lemma initClientState_fields {W : Type} (env : Env W) (w : W) (client : ClientId)
    (phone : string) (groupsOnly : bool) (c : MultiCommenter.ClientState) :
  result (run env (MultiCommenter.initClientState client phone groupsOnly) w) = Js.Value c →
  MultiCommenter.client c = client ∧ MultiCommenter.phone c = phone.
Proof.
  pose proof (run_initClientState env w client phone groupsOnly) as Hrun.
  cbv zeta in Hrun. rewrite Hrun. unfold result.
  destruct (env (GetMe client) w).1 as [me | e1];
    destruct (env (GetDialogs client) _).1 as [ds | e2]; cbn [fst];
    try (by intros [= <-]).
  destruct (env (GetDialogs client) _).1 as [ds | e3]; by intros [= <-].
Qed.

(** The start-up loop keeps the accounts in the order of the
    configuration: when it succeeds, the clients are those it started
    with followed by one state per phone, each with its phone and with
    the index of its turn as client; no account is skipped or doubled.
    One account that cannot be started makes the whole loop fail. *)
Theorem initClients_order {W : Type} (env : Env W) (phones : list string) (groupsOnly : bool) :
  ∀ (w : W) (i : ClientId) (clients cs : list MultiCommenter.ClientState),
    result (run env (MultiCommenter.initClients i phones groupsOnly clients) w) = Js.Value cs →
    ∃ news, cs = clients ++ news
            ∧ MultiCommenter.phone <$> news = phones
            ∧ MultiCommenter.client <$> news = seq i (length phones).
Proof.
  induction phones as [| phone rest IH]; intros w i clients cs.
  - simpl. intros [= <-]. exists []. by rewrite app_nil_r.
  - cbn [MultiCommenter.initClients]. rewrite run_bind.
    pose proof (initClientState_fields env w i phone groupsOnly) as Hfields.
    destruct (run env (MultiCommenter.initClientState i phone groupsOnly) w) as [[[c | e] w1] t1];
      unfold result in Hfields; cbn [fst] in Hfields.
    + destruct (Hfields c eq_refl) as [Hclient Hphone].
      specialize (IH w1 (S i) (clients ++ [c]) cs).
      destruct (run env (MultiCommenter.initClients (S i) rest groupsOnly (clients ++ [c])) w1)
        as [[r w2] t2]. unfold result in *. cbn [fst] in *.
      intros Hr. destruct (IH Hr) as (news & -> & Hphones & Hclients).
      exists (c :: news). rewrite <- app_assoc. split_and!; [done | |].
      * csimpl. by rewrite Hphone, Hphones.
      * csimpl. by rewrite Hclient, Hclients.
    + cbn [run]. done.
Qed.

Lemma initClients_order_witness :
  ∃ news,
    [Sim.account 0 501 11%positive; Sim.account 1 502 21%positive] = [] ++ news
    ∧ MultiCommenter.phone <$> news = ["+1000"; "+1001"]
    ∧ MultiCommenter.client <$> news = seq 0 2.
Proof.
  apply (initClients_order
           (Scenario.perAccount) ["+1000"; "+1001"] true 0%nat 0%nat []
           [Sim.account 0 501 11%positive; Sim.account 1 502 21%positive]).
  vm_compute. reflexivity.
Defined.

(** ** What the handler sends *)





(** The probability gate at its ends.  With [ignore_probability] at 1
    (or more) the handler answers nothing: it draws once and returns,
    the variables untouched. *)
Theorem ignore_probability_one {W : Type} (env : Env W) (w : W)
    (cfg : MultiCommenter.Runtime) (watcher : ClientId) (st : MultiCommenter.Main)
    (event : MultiCommenter.NewMessageEvent) :
  unitInterval env →
  (1 <= MultiCommenter.ignore_probability cfg)%Q →
  result (run env (MultiCommenter.onNewMessage cfg watcher st event) w) = st
  ∧ sends (trace (run env (MultiCommenter.onNewMessage cfg watcher st event) w)) = []
  ∧ (length (trace (run env (MultiCommenter.onNewMessage cfg watcher st event) w)) ≤ 1)%nat.
Proof.
  intros Hrand Hone. unfold MultiCommenter.onNewMessage.
  destruct (MultiCommenter.event_chat event) as [[chat |] | e]; [| (cbn; split_and!; [done | done | lia]) | (cbn; split_and!; [done | done | lia])].
  destruct (negb _); [(cbn; split_and!; [done | done | lia]) |].
  destruct (MultiCommenter.authoredByUs _ _); [(cbn; split_and!; [done | done | lia]) |].
  rewrite run_bind, (run_call env MathRandom).
  destruct (Hrand w) as [_ H1].
  destruct (env MathRandom w) as [r w1]. cbn [fst snd] in *. cbv beta iota.
  destruct (Qlt_le_dec r (MultiCommenter.ignore_probability cfg)) as [| Hle]; [(cbn; split_and!; [done | done | lia]) |].
  exfalso. apply (Qlt_irrefl r). eapply Qlt_le_trans; [exact H1 |]. by eapply Qle_trans.
Qed.

Lemma ignore_probability_one_witness :
  sends (trace (run (Sim.env Sim.quiet)
                    (MultiCommenter.onNewMessage
                       {| MultiCommenter.groups_only := true;
                          MultiCommenter.comments_source := "templates";
                          MultiCommenter.comments_refresh_minutes := 30;
                          MultiCommenter.ignore_probability := 1%Q;
                          MultiCommenter.max_comment_history := None |}
                       0 (Sim.mainState ["nice"]) (Sim.postBy 900)) 0%Z)) = [].
Proof.
  assert (Hrand : unitInterval (Sim.env Sim.quiet)).
  { intros w. split; [vm_compute; discriminate | vm_compute; reflexivity]. }
  destruct (ignore_probability_one (Sim.env Sim.quiet) 0%Z
              {| MultiCommenter.groups_only := true;
                 MultiCommenter.comments_source := "templates";
                 MultiCommenter.comments_refresh_minutes := 30;
                 MultiCommenter.ignore_probability := 1%Q;
                 MultiCommenter.max_comment_history := None |}
              0%nat (Sim.mainState ["nice"]) (Sim.postBy 900) Hrand) as (_ & Hno & _).
  - vm_compute. discriminate.
  - exact Hno.
Defined.

Lemma run_pickComment_nonempty {W : Type} (env : Env W) (w : W)
    (cfg : MultiCommenter.Runtime) (watcher : ClientId) (cache : list string) :
  unitInterval env → templatesOk cache → cache ≠ [] →
  ∃ x, x ∈ cache
       ∧ run env (MultiCommenter.pickComment cfg watcher cache) w
         = ((cache, x), (env MathRandom w).2, [MathRandom]).
Proof.
  intros Hrand Hok Hne. unfold MultiCommenter.pickComment.
  rewrite run_bind, run_multi_pickRandom.
  destruct (Hrand w) as [H0 H1].
  destruct (at_random_in_range cache _ Hne H0 H1) as (x & Hx & Hin).
  exists x. split; [done |]. rewrite Hx.
  assert (Hxne : x ≠ "") by (by eapply Forall_forall in Hok).
  destruct cache as [| t ts]; [done |]. cbv beta iota.
  unfold Js.orElse. destruct (decide (x = "")) as [| _]; [done |].
  destruct (decide (x = "")) as [| _]; [done |]. done.
Qed.

(** With [ignore_probability] at 0 (or less) the probability gate lets
    every event through: a post by a stranger in a conversation that is
    among the common ids and that every account has in its pool, met
    with templates in the cache, is answered exactly once, with a
    template of the cache, by one of the accounts through its own handle
    for the conversation; three draws are made and the variables are
    left as they were. *)
Theorem qualifying_event_answered {W : Type} (env : Env W) (w : W)
    (cfg : MultiCommenter.Runtime) (watcher : ClientId) (st : MultiCommenter.Main)
    (event : MultiCommenter.NewMessageEvent) (chat : Api.Entity) :
  unitInterval env →
  (MultiCommenter.ignore_probability cfg <= 0)%Q →
  MultiCommenter.event_chat event = Js.Value (Some chat) →
  peerIdString chat ∈ MultiCommenter.commonIds st →
  MultiCommenter.authoredByUs (MultiCommenter.clients st) event = false →
  MultiCommenter.commentsCache st ≠ [] →
  templatesOk (MultiCommenter.commentsCache st) →
  MultiCommenter.clients st ≠ [] →
  (∀ c, c ∈ MultiCommenter.clients st →
        is_Some (MultiCommenter.writablePeers c !! peerIdString chat)) →
  ∃ chosen rec comment,
    chosen ∈ MultiCommenter.clients st
    ∧ MultiCommenter.writablePeers chosen !! peerIdString chat = Some rec
    ∧ comment ∈ MultiCommenter.commentsCache st
    ∧ trace (run env (MultiCommenter.onNewMessage cfg watcher st event) w)
      = [MathRandom; MathRandom; MathRandom;
         SendMessage (MultiCommenter.client chosen) (MultiCommenter.input rec) comment
           (MultiCommenter.event_message event ≫= Api.message_id)]
    ∧ result (run env (MultiCommenter.onNewMessage cfg watcher st event) w) = st.
Proof.
  intros Hrand Hzero Hchat Hcommon Hown Hcache Hok Hclients Hpools.
  unfold MultiCommenter.onNewMessage. rewrite Hchat.
  rewrite bool_decide_eq_true_2 by done. cbn [negb]. rewrite Hown.
  rewrite run_bind, (run_call env MathRandom).
  destruct (Hrand w) as [H0 _].
  destruct (env MathRandom w) as [r w1]. cbn [fst snd] in *. cbv beta iota.
  destruct (Qlt_le_dec r (MultiCommenter.ignore_probability cfg)) as [Hlt | _].
  { exfalso. apply (Qlt_irrefl r). eapply Qlt_le_trans; [exact Hlt |]. by eapply Qle_trans. }
  rewrite run_bind.
  destruct (run_pickComment_nonempty env w1 cfg watcher _ Hrand Hok Hcache)
    as (comment & Hin & ->). cbv beta iota.
  assert (Hne : comment ≠ "") by (by eapply Forall_forall in Hok).
  destruct (decide (comment = "")) as [| _]; [done |].
  rewrite run_bind, run_multi_pickRandom.
  cbn [MultiCommenter.clients MultiCommenter.setCommentsCache].
  destruct (Hrand (env MathRandom w1).2) as [H0' H1'].
  destruct (at_random_in_range (MultiCommenter.clients st) _ Hclients H0' H1')
    as (chosen & Hchosen & Hmember).
  destruct (MultiCommenter.clients st) as [| c0 cs] eqn:Hcs; [done |]. rewrite Hchosen.
  cbv beta iota. destruct (Hpools chosen Hmember) as [rec Hrec].
  unfold MultiCommenter.getClientInputForPeer. rewrite Hrec. cbn [fmap option_fmap option_map].
  exists chosen, rec, comment. split_and!; [done | done | done | |].
  - change (_ ← call ?c; ?k) with (Vis c (fun _ => k)). cbn [run].
    by destruct (env (SendMessage _ _ _ _) _).
  - change (_ ← call ?c; ?k) with (Vis c (fun _ => k)). cbn [run].
    destruct (env (SendMessage _ _ _ _) _). unfold result. cbn [fst].
    destruct st. cbn in *. by subst.
Qed.

Lemma qualifying_event_answered_witness :
  ∃ chosen rec comment,
    chosen ∈ Sim.twoAccounts
    ∧ MultiCommenter.writablePeers chosen !! "channel_1" = Some rec
    ∧ comment ∈ ["nice"]
    ∧ trace (run (Sim.env Sim.quiet)
                 (MultiCommenter.onNewMessage Sim.runtime 0 (Sim.mainState ["nice"])
                    (Sim.postBy 900)) 0%Z)
      = [MathRandom; MathRandom; MathRandom;
         SendMessage (MultiCommenter.client chosen) (MultiCommenter.input rec) comment (Some 77%Z)]
    ∧ result (run (Sim.env Sim.quiet)
                  (MultiCommenter.onNewMessage Sim.runtime 0 (Sim.mainState ["nice"])
                     (Sim.postBy 900)) 0%Z)
      = Sim.mainState ["nice"].
Proof.
  assert (Hrand : unitInterval (Sim.env Sim.quiet)).
  { intros w. split; [vm_compute; discriminate | vm_compute; reflexivity]. }
  apply (qualifying_event_answered (Sim.env Sim.quiet) 0%Z Sim.runtime 0%nat
           (Sim.mainState ["nice"]) (Sim.postBy 900) (Api.EChannel (Sim.megagroup 1)) Hrand).
  - vm_compute. discriminate.
  - reflexivity.
  - by vm_compute.
  - reflexivity.
  - discriminate.
  - apply Forall_cons_2; [discriminate | apply Forall_nil_2].
  - discriminate.
  - intros c Hc. unfold Sim.mainState, Sim.twoAccounts in Hc. cbn in Hc.
    apply elem_of_cons in Hc as [-> | Hc]; [by eexists |].
    apply list_elem_of_singleton in Hc as ->. by eexists.
Defined.

(** ** The common ids after start-up *)

Lemma elem_of_commonIdsOf (clients : list MultiCommenter.ClientState) (id : string) :
  clients ≠ [] →
  id ∈ MultiCommenter.commonIdsOf clients
  ↔ ∀ c, c ∈ clients → id ∈ dom (MultiCommenter.writablePeers c).
Proof.
  intros Hne. unfold MultiCommenter.commonIdsOf, MultiCommenter.idSets.
  destruct clients as [| c0 rest]; [done |]. rewrite fmap_cons.
  rewrite elem_of_foldl_keepCommon. split.
  - intros [H0 Hrest] c [-> | Hin]%elem_of_cons; [done |].
    apply Hrest. apply list_elem_of_fmap. by exists c.
  - intros Hall. split; [apply Hall; left |].
    intros t (c & -> & Hin)%list_elem_of_fmap. apply Hall. by right.
Qed.

(** The common ids do not depend on the order in which the accounts are
    configured, and a further account can only narrow them: with one
    more account they are the former ones that this account has too.
    Every account has a handle for every common id. *)
Theorem commonIds_order_irrelevant (clients clients' : list MultiCommenter.ClientState)
    (c : MultiCommenter.ClientState) :
  clients ≠ [] →
  (clients ≡ₚ clients' →
   MultiCommenter.commonIdsOf clients = MultiCommenter.commonIdsOf clients')
  ∧ MultiCommenter.commonIdsOf (clients ++ [c])
    = MultiCommenter.commonIdsOf clients ∩ dom (MultiCommenter.writablePeers c)
  ∧ MultiCommenter.commonIdsOf (clients ++ [c]) ⊆ MultiCommenter.commonIdsOf clients
  ∧ (∀ c0 id, c0 ∈ clients → id ∈ MultiCommenter.commonIdsOf clients →
              is_Some (MultiCommenter.getClientInputForPeer id c0)).
Proof.
  intros Hne.
  assert (Hsnoc : MultiCommenter.commonIdsOf (clients ++ [c])
                  = MultiCommenter.commonIdsOf clients ∩ dom (MultiCommenter.writablePeers c)).
  { apply set_eq. intros id. rewrite elem_of_intersection.
    rewrite !elem_of_commonIdsOf by (try done; by destruct clients). split.
    - intros Hall. split.
      + intros c0 Hin. apply Hall. rewrite elem_of_app. by left.
      + apply Hall. rewrite elem_of_app, list_elem_of_singleton. by right.
    - intros [Hall Hc] c0 [Hin | ->%list_elem_of_singleton]%elem_of_app; [by apply Hall | done]. }
  split_and!.
  - intros Hperm.
    assert (Hne' : clients' ≠ []).
    { intros ->. by apply Permutation_nil_r in Hperm. }
    apply set_eq. intros id. rewrite !elem_of_commonIdsOf by done.
    split; intros Hall c0 Hin; apply Hall; [by rewrite Hperm | by rewrite <- Hperm].
  - done.
  - rewrite Hsnoc. intros id. rewrite elem_of_intersection. tauto.
  - intros c0 id Hin Hid. rewrite (elem_of_commonIdsOf clients id Hne) in Hid.
    specialize (Hid c0 Hin). apply elem_of_dom in Hid as [rec Hrec].
    unfold MultiCommenter.getClientInputForPeer. rewrite Hrec. by eexists.
Qed.

Lemma commonIds_order_irrelevant_witness :
  MultiCommenter.commonIdsOf [Sim.account 0 501 11%positive; Sim.account 1 502 21%positive]
  = MultiCommenter.commonIdsOf [Sim.account 1 502 21%positive; Sim.account 0 501 11%positive].
Proof.
  destruct (commonIds_order_irrelevant
              [Sim.account 0 501 11%positive; Sim.account 1 502 21%positive]
              [Sim.account 1 502 21%positive; Sim.account 0 501 11%positive]
              (Sim.account 0 501 11%positive)) as [Hperm _]; [discriminate |].
  apply Hperm. apply perm_swap.
Defined.

(** The pools and the common ids are a snapshot of start-up: at every
    point of the life of the process the clients are those [main]
    started with and the common ids are the intersection of their pools
    as they were then; neither callback changes them.  Hence, in every
    state that is reached, each account has a handle for each common
    id. *)
Theorem reachable_snapshot (cfg : MultiCommenter.Runtime) (watcher : ClientId)
    (clients : list MultiCommenter.ClientState) (st : MultiCommenter.Main) :
  reachable cfg watcher clients st →
  MultiCommenter.clients st = clients
  ∧ MultiCommenter.commonIds st = MultiCommenter.commonIdsOf clients
  ∧ (clients ≠ [] →
     ∀ c id, c ∈ MultiCommenter.clients st → id ∈ MultiCommenter.commonIds st →
             is_Some (MultiCommenter.getClientInputForPeer id c)).
Proof.
  intros Hreach.
  assert (Hsnap : MultiCommenter.clients st = clients
                  ∧ MultiCommenter.commonIds st = MultiCommenter.commonIdsOf clients).
  { induction Hreach as [W env w | W env w st Hst IH | W env w st event Hrand Hst IH].
    - unfold MultiCommenter.startMain. rewrite run_bind.
      by destruct (run env (MultiCommenter.fetchTemplates cfg watcher) w) as [[list w1] t1].
    - rewrite run_commentsTimerTick.
      by destruct (result (run env (MultiCommenter.fetchTemplates cfg watcher) w)).
    - destruct (onNewMessage_keeps_pools env w cfg watcher st event) as [-> ->]. done. }
  destruct Hsnap as [Hc Hi]. split_and!; [done | done |].
  intros Hne c id Hin Hid. rewrite Hc in Hin. rewrite Hi in Hid.
  rewrite (elem_of_commonIdsOf clients id Hne) in Hid.
  specialize (Hid c Hin). apply elem_of_dom in Hid as [rec Hrec].
  unfold MultiCommenter.getClientInputForPeer. rewrite Hrec. by eexists.
Qed.

Lemma reachable_snapshot_witness :
  MultiCommenter.commonIds
    (result (run (Sim.env Sim.quiet)
                 (MultiCommenter.onNewMessage Sim.runtime 0
                    (result (run (Sim.env Sim.quiet)
                                 (MultiCommenter.startMain Sim.runtime 0 Sim.twoAccounts) 0%Z))
                    (Sim.postBy 900)) 0%Z))
  = MultiCommenter.commonIdsOf Sim.twoAccounts.
Proof.
  assert (Hrand : unitInterval (Sim.env Sim.quiet)).
  { intros w. split; [vm_compute; discriminate | vm_compute; reflexivity]. }
  apply (reachable_snapshot Sim.runtime 0%nat Sim.twoAccounts).
  apply reach_event; [exact Hrand | apply reach_start].
Defined.

(** ** Which calls the callbacks make *)









(** ** Refreshing and the uninitialised service *)

(** A refresh replaces the pool by what the listing gives and nothing
    else: the pool afterwards does not depend on the pool before, and
    refreshing again on the same listing changes nothing. *)
Theorem refresh_idempotent {W : Type} (env : Env W) (w w' : W)
    (s s2 : TelegramService.t) (c : ClientId) (ds : list (option Api.Dialog)) :
  TelegramService.client s = Some c →
  (∀ w0, (env (GetDialogs c) w0).1 = Js.Value ds) →
  TelegramService.client s2 = Some c →
  TelegramService.groups_only s2 = TelegramService.groups_only s →
  result (run env (Poster.refreshTask s) w) = result (run env (Poster.refreshTask s2) w')
  ∧ result (run env (Poster.refreshTask (result (run env (Poster.refreshTask s) w))) w')
    = result (run env (Poster.refreshTask s) w)
  ∧ TelegramService.writablePeers (result (run env (Poster.refreshTask s) w))
    = omap (TelegramService.classify (TelegramService.groups_only s)) ds.
Proof.
  intros Hc Hds Hc2 Hg2.
  assert (Hrefresh : ∀ s0 w0, TelegramService.client s0 = Some c →
            result (run env (Poster.refreshTask s0) w0)
            = TelegramService.setWritablePeers s0
                (TelegramService.nextPeers (TelegramService.groups_only s0) ds)).
  { intros s0 w0 Hc0. unfold Poster.refreshTask.
    by rewrite result_safeTask, (run_updateWritableGroups_ok env w0 s0 c ds Hc0 (Hds w0)). }
  rewrite (Hrefresh s w Hc), (Hrefresh s2 w' Hc2). split_and!.
  - unfold TelegramService.setWritablePeers. by rewrite Hc, Hc2, Hg2.
  - by rewrite Hrefresh.
  - cbn. apply nextPeers_omap.
Qed.

Lemma refresh_idempotent_witness :
  result (run (Sim.env (Sim.withDialogs Sim.quiet (Js.Value [Scenario.groupA; Scenario.groupB])))
              (Poster.refreshTask (Sim.service [])) 0%Z)
  = result (run (Sim.env (Sim.withDialogs Sim.quiet (Js.Value [Scenario.groupA; Scenario.groupB])))
                (Poster.refreshTask (Sim.service [Sim.peerB])) 5%Z).
Proof.
  destruct (refresh_idempotent
              (Sim.env (Sim.withDialogs Sim.quiet (Js.Value [Scenario.groupA; Scenario.groupB])))
              0%Z 5%Z (Sim.service []) (Sim.service [Sim.peerB]) 0%nat
              [Scenario.groupA; Scenario.groupB] eq_refl (fun _ => eq_refl) eq_refl eq_refl)
    as [Hsame _].
  exact Hsame.
Defined.

(** Before [init] has set the client, nothing reaches the platform: a
    send returns [false] without a call and leaves the pool alone; a
    refresh throws ["Client not initialized"] to its caller, outside
    its own [try]; and both timer tasks of [poster] end normally with
    the service unchanged, without a send and without a listing. *)
Theorem uninitialised_service_is_inert {W : Type} (env : Env W) (w : W)
    (s : TelegramService.t) (inputPeer : Api.InputPeer) (message : string)
    (messages : option (list (option string))) :
  TelegramService.client s = None →
  run env (TelegramService.sendMessageTo s inputPeer message) w = ((false, s), w, [])
  ∧ run env (TelegramService.updateWritableGroups s) w
    = ((Js.Throws TelegramService.clientNotInitialized, s), w, [])
  ∧ run env (Poster.refreshTask s) w = (s, w, [])
  ∧ result (run env (Poster.postTask messages s) w) = s
  ∧ Forall (fun c => c = MathRandom) (trace (run env (Poster.postTask messages s) w)).
Proof.
  intros Hc.
  assert (Hsend : ∀ i m w0, run env (TelegramService.sendMessageTo s i m) w0 = ((false, s), w0, [])).
  { intros i m w0. unfold TelegramService.sendMessageTo. by rewrite Hc. }
  assert (Hup : ∀ w0, run env (TelegramService.updateWritableGroups s) w0
                      = ((Js.Throws TelegramService.clientNotInitialized, s), w0, [])).
  { intros w0. unfold TelegramService.updateWritableGroups. by rewrite Hc. }
  split_and!; [apply Hsend | apply Hup | | |].
  - unfold Poster.refreshTask. by rewrite run_safeTask, Hup.
  - unfold Poster.postTask. rewrite result_safeTask, run_postMessage.
    destruct (Poster.usableMessages messages) as [| m0 ms]; [done |].
    rewrite run_poster_pickRandom. cbv beta iota.
    destruct (negb (Js.truthy _)); [done |].
    rewrite run_sendRandomMessage.
    destruct (TelegramService.writablePeers s) as [| p0 ps].
    + cbn [negb]. by rewrite Hup.
    + destruct (TelegramService.at_random (p0 :: ps) _) as [p |].
      * rewrite Hsend. cbn [negb]. by rewrite Hup.
      * cbn [negb]. by rewrite Hup.
  - unfold Poster.postTask. rewrite trace_safeTask, run_postMessage.
    destruct (Poster.usableMessages messages) as [| m0 ms]; [apply Forall_nil_2 |].
    rewrite run_poster_pickRandom. cbv beta iota.
    destruct (negb (Js.truthy _)); [by apply Forall_cons_2, Forall_nil_2 |].
    rewrite run_sendRandomMessage.
    destruct (TelegramService.writablePeers s) as [| p0 ps].
    + cbn [negb]. rewrite Hup. by apply Forall_cons_2, Forall_nil_2.
    + destruct (TelegramService.at_random (p0 :: ps) _) as [p |].
      * rewrite Hsend. cbn [negb]. rewrite Hup. unfold trace. cbn.
        repeat (apply Forall_cons_2; [done |]). apply Forall_nil_2.
      * cbn [negb]. rewrite Hup. unfold trace. cbn.
        repeat (apply Forall_cons_2; [done |]). apply Forall_nil_2.
Qed.

Lemma uninitialised_service_is_inert_witness :
  run (Sim.env Sim.quiet)
      (Poster.refreshTask {| TelegramService.client := None; TelegramService.groups_only := true;
                             TelegramService.writablePeers := [] |}) 0%Z
  = ({| TelegramService.client := None; TelegramService.groups_only := true;
        TelegramService.writablePeers := [] |}, 0%Z, []).
Proof.
  destruct (uninitialised_service_is_inert (Sim.env Sim.quiet) 0%Z
              {| TelegramService.client := None; TelegramService.groups_only := true;
                 TelegramService.writablePeers := [] |} 1%positive "hello" None eq_refl)
    as (_ & _ & Hrefresh & _).
  exact Hrefresh.
Defined.

(** ** Instances *)

Lemma fetchCommentTemplates_trimmed_witness :
  (length (result (run (Sim.env (Sim.withMessages Sim.quiet
                                   (Js.Value [Sim.textPost "  first "; None; Sim.textPost "   "])))
                       (MultiCommenter.fetchCommentTemplates 0 "templates" 200) 0%Z))
   ≤ 3)%nat.
Proof.
  destruct (fetchCommentTemplates_trimmed
              (Sim.env (Sim.withMessages Sim.quiet
                          (Js.Value [Sim.textPost "  first "; None; Sim.textPost "   "])))
              0%Z 0%nat "templates" 200) as [_ Hlen].
  apply (Hlen (Api.OtherEntity "Channel")
              [Sim.textPost "  first "; None; Sim.textPost "   "]); reflexivity.
Defined.

Lemma nextPeers_members_witness :
  Sim.peerB ∈ TelegramService.nextPeers true [Scenario.groupA; Scenario.alice; Scenario.groupB].
Proof.
  apply (nextPeers_members true [Scenario.groupA; Scenario.alice; Scenario.groupB] Sim.peerB).
  exists (Sim.dialogOf "B" 12%positive true false (Api.EChat Scenario.chatB)), (Api.EChat Scenario.chatB).
  split_and!; try reflexivity.
  apply elem_of_cons. right. apply elem_of_cons. right. apply elem_of_cons. by left.
Defined.

Lemma groups_only_excludes_users_witness :
  String.prefix "user_" (TelegramService.id Sim.peerB) = false.
Proof.
  destruct (groups_only_excludes_users [Scenario.groupA; Scenario.alice; Scenario.groupB])
    as [Hlist _].
  apply Hlist. apply elem_of_cons. right. apply elem_of_cons. by left.
Defined.

Lemma sendMessageTo_pool_witness :
  Sim.peerB ∈ TelegramService.writablePeers
    (result (run (Sim.env (Sim.withSend Sim.quiet (Sim.rpcError "PEER_ID_INVALID")))
                 (TelegramService.sendMessageTo (Sim.service [Sim.peerA; Sim.peerB])
                    11%positive "hello") 0%Z)).2.
Proof.
  destruct (sendMessageTo_pool (Sim.env (Sim.withSend Sim.quiet (Sim.rpcError "PEER_ID_INVALID")))
              0%Z (Sim.service [Sim.peerA; Sim.peerB]) 11%positive "hello")
    as (_ & _ & _ & _ & Hstay & _).
  apply Hstay; [| discriminate]. apply elem_of_cons. right. apply elem_of_cons. by left.
Defined.
